(** * Telegram MCP servers: a shallow embedding of the tool dispatchers

    The development follows the three server classes of
    [telegram-mcp-server_chat-reader.ts] (the chat reader with
    [auto_connect], the chat reader without it, and the bot-API server)
    and the persistence step of the authentication script.

    Conventions.
    - A JavaScript string is the sequence of its code units; one [ascii]
      stands for one code unit, so the strings covered are those whose
      code units are below 256.
    - A JavaScript number is an integer, held in [Z], or [NaN]; the
      integers covered are those a double holds exactly.
    - An object is the list of its own properties in insertion order.
    - An [async] method is a state transformer that either returns or
      throws; the server handles one request at a time. *)

From Stdlib Require Import String Ascii ZArith List Bool DecimalString.
Import ListNotations.
Open Scope string_scope.

Set Implicit Arguments.

(** ** Strings *)

Module Str.

(** [hay] contains [needle] as a run of consecutive characters. *)
Fixpoint contains (needle hay : string) : bool :=
  if prefix needle hay then true
  else match hay with
       | EmptyString => false
       | String _ rest => contains needle rest
       end.

(** White space and line terminators of [String.prototype.trim], in the
    range of code units covered: TAB, LF, VT, FF, CR, SP and NBSP. *)
Definition is_space (c : ascii) : bool :=
  let n := N_of_ascii c in
  ((9 <=? n) && (n <=? 13) || (n =? 32) || (n =? 160))%N.

Fixpoint trimStart (s : string) : string :=
  match s with
  | EmptyString => EmptyString
  | String c rest => if is_space c then trimStart rest else s
  end.

(** [trimEnd] drops a character when it is white space and everything
    after it has been dropped. *)
Fixpoint trimEnd (s : string) : string :=
  match s with
  | EmptyString => EmptyString
  | String c rest =>
      match trimEnd rest with
      | EmptyString => if is_space c then EmptyString else String c EmptyString
      | kept => String c kept
      end
  end.

Definition trim (s : string) : string := trimEnd (trimStart s).

Definition first_is_space (s : string) : bool :=
  match s with
  | EmptyString => false
  | String c _ => is_space c
  end.

Fixpoint last_is_space (s : string) : bool :=
  match s with
  | EmptyString => false
  | String c EmptyString => is_space c
  | String _ rest => last_is_space rest
  end.

Fixpoint all_space (s : string) : bool :=
  match s with
  | EmptyString => true
  | String c rest => is_space c && all_space rest
  end.

End Str.

(** ** JavaScript values *)

Unset Elimination Schemes.
Inductive jsval : Type :=
| JUndefined
| JNull
| JBool (b : bool)
| JNum (z : Z)
| JNaN
| JStr (s : string)
| JArr (items : list jsval)
| JObj (props : list (string * jsval)).
Set Elimination Schemes.

Definition object := list (string * jsval).

(** [o.k]: the value of the own property [k], [undefined] without one. *)
Fixpoint get (k : string) (o : object) : jsval :=
  match o with
  | [] => JUndefined
  | (k', v) :: rest => if String.eqb k k' then v else get k rest
  end.

Fixpoint has_key (k : string) (o : object) : bool :=
  match o with
  | [] => false
  | (k', _) :: rest => String.eqb k k' || has_key k rest
  end.

(** [o.k = v]: overwrite in place, or add as the last property. *)
Fixpoint set (k : string) (v : jsval) (o : object) : object :=
  match o with
  | [] => [(k, v)]
  | (k', v') :: rest =>
      if String.eqb k k' then (k', v) :: rest else (k', v') :: set k v rest
  end.

(** [delete o.k]. *)
Fixpoint delete (k : string) (o : object) : object :=
  match o with
  | [] => []
  | (k', v) :: rest =>
      if String.eqb k k' then delete k rest else (k', v) :: delete k rest
  end.

(** ToBoolean. *)
Definition truthy (v : jsval) : bool :=
  match v with
  | JUndefined | JNull => false
  | JBool b => b
  | JNum z => negb (z =? 0)%Z
  | JNaN => false
  | JStr s => negb (String.eqb s "")
  | JArr _ | JObj _ => true
  end.

(** [{k = d} = args]: the default applies to [undefined] only. *)
Definition with_default (d v : jsval) : jsval :=
  match v with
  | JUndefined => d
  | _ => v
  end.

(** Number and big-integer [toString()]: decimal digits. *)
Definition Z_toString (z : Z) : string := NilZero.string_of_int (Z.to_int z).

(** An optional field of a library object is missing ([None]), holds
    [null], or holds a value; the servers copy what they find. *)
Inductive nullable (A : Type) : Type :=
| Null
| Val (a : A).
Arguments Null {A}.
Arguments Val {A} a.

Definition opt_str (o : option (nullable string)) : jsval :=
  match o with
  | Some (Val s) => JStr s
  | Some Null => JNull
  | None => JUndefined
  end.

Definition opt_num (o : option (nullable Z)) : jsval :=
  match o with
  | Some (Val z) => JNum z
  | Some Null => JNull
  | None => JUndefined
  end.

Definition opt_bool (o : option (nullable bool)) : jsval :=
  match o with
  | Some (Val b) => JBool b
  | Some Null => JNull
  | None => JUndefined
  end.

(** [x?.toString()] on an optional big integer: [undefined] for a
    missing one and for [null]. *)
Definition opt_toString (o : option Z) : jsval :=
  match o with Some z => JStr (Z_toString z) | None => JUndefined end.

(** ** JSON text *)

Module JSON.

(** The quotation mark and the reverse solidus, by their bits. *)
Abbreviation dquote := (Ascii false true false false false true false false).
Abbreviation backslash := (Ascii false false true true true false true false).

Definition hex_digit (n : N) : ascii :=
  if (n <? 10)%N then ascii_of_N (48 + n) else ascii_of_N (87 + n).

(** QuoteJSONString, one code unit. *)
Definition escape_char (c : ascii) : string :=
  let n := N_of_ascii c in
  if (n =? 8)%N then "\b"
  else if (n =? 9)%N then "\t"
  else if (n =? 10)%N then "\n"
  else if (n =? 12)%N then "\f"
  else if (n =? 13)%N then "\r"
  else if (n =? 34)%N then String backslash (String dquote "")
  else if (n =? 92)%N then "\\"
  else if (n <? 32)%N then
    "\u00" ++ String (hex_digit (n / 16)) (String (hex_digit (n mod 16)) "")
  else String c "".

Fixpoint escape (s : string) : string :=
  match s with
  | EmptyString => EmptyString
  | String c rest => escape_char c ++ escape rest
  end.

Definition quote (s : string) : string :=
  String dquote (escape s ++ String dquote "").

Definition newline : string := String (ascii_of_N 10) "".

(** The gap of [JSON.stringify(v, null, 2)]. *)
Definition gap : string := "  ".

(** Brackets around the serialized members, one per line at [inner]. *)
Definition wrap (opening closing outer inner : string) (parts : list string)
  : string :=
  match parts with
  | [] => opening ++ closing
  | _ => opening ++ newline ++ inner
           ++ String.concat ("," ++ newline ++ inner) parts
           ++ newline ++ outer ++ closing
  end.

(** SerializeJSONProperty with a two-space gap at indentation [ind].
    An [undefined] array element is written [null]; an [undefined]
    property is left out. *)
Fixpoint serialize (ind : string) (v : jsval) {struct v} : string :=
  match v with
  | JUndefined => "null"
  | JNull => "null"
  | JBool b => if b then "true" else "false"
  | JNum z => Z_toString z
  | JNaN => "null"
  | JStr s => quote s
  | JArr items =>
      let inner := ind ++ gap in
      wrap "[" "]" ind inner
        ((fix elements (l : list jsval) : list string :=
            match l with
            | [] => []
            | x :: rest => serialize inner x :: elements rest
            end) items)
  | JObj props =>
      let inner := ind ++ gap in
      wrap "{" "}" ind inner
        ((fix members (l : list (string * jsval)) : list string :=
            match l with
            | [] => []
            | (k, JUndefined) :: rest => members rest
            | (k, x) :: rest =>
                (quote k ++ ": " ++ serialize inner x) :: members rest
            end) props)
  end.

(** [JSON.stringify(v, null, 2)]; the source applies it to arrays and
    objects only, for which the engine always answers a string. *)
Definition stringify (v : jsval) : string := serialize "" v.

(** *** JSON.parse

    The reader accepts the JSON grammar with two limits that come from
    the value model: a number must be an integer literal, and a
    [\uXXXX] escape must denote a code unit below 256.  On text within
    these limits [None] stands for the SyntaxError the engine throws.
    Text beyond them is not covered: a number with a fraction or an
    exponent, which the engine accepts, is answered [None] here, and an
    integer literal beyond 2^53 is kept exact where the engine rounds
    it.  The order in which a parsed object lists its properties is
    never observed by the servers. *)

Definition is_ws (c : ascii) : bool :=
  let n := N_of_ascii c in
  ((n =? 32) || (n =? 9) || (n =? 10) || (n =? 13))%N.

Fixpoint skip_ws (s : string) : string :=
  match s with
  | EmptyString => EmptyString
  | String c rest => if is_ws c then skip_ws rest else s
  end.

Definition hex_value (c : ascii) : option N :=
  let n := N_of_ascii c in
  if ((48 <=? n) && (n <=? 57))%N then Some (n - 48)%N
  else if ((97 <=? n) && (n <=? 102))%N then Some (n - 87)%N
  else if ((65 <=? n) && (n <=? 70))%N then Some (n - 55)%N
  else None.

Definition hex4 (a b c d : ascii) : option N :=
  match hex_value a, hex_value b, hex_value c, hex_value d with
  | Some x, Some y, Some z, Some w => Some (((x * 16 + y) * 16 + z) * 16 + w)%N
  | _, _, _, _ => None
  end.

Definition push (c : ascii) (r : option (string * string))
  : option (string * string) :=
  match r with
  | Some (s, rest) => Some (String c s, rest)
  | None => None
  end.

(** The characters of a string literal, read after its opening quote. *)
Fixpoint chars (s : string) : option (string * string) :=
  match s with
  | EmptyString => None
  | String c rest =>
      let n := N_of_ascii c in
      if (n =? 34)%N then Some (EmptyString, rest)
      else if (n =? 92)%N then
        match rest with
        | EmptyString => None
        | String e rest1 =>
            let m := N_of_ascii e in
            if (m =? 34)%N then push e (chars rest1)
            else if (m =? 92)%N then push e (chars rest1)
            else if (m =? 47)%N then push e (chars rest1)
            else if (m =? 98)%N then push (ascii_of_N 8) (chars rest1)
            else if (m =? 102)%N then push (ascii_of_N 12) (chars rest1)
            else if (m =? 110)%N then push (ascii_of_N 10) (chars rest1)
            else if (m =? 114)%N then push (ascii_of_N 13) (chars rest1)
            else if (m =? 116)%N then push (ascii_of_N 9) (chars rest1)
            else if (m =? 117)%N then
              match rest1 with
              | String h1 (String h2 (String h3 (String h4 rest2))) =>
                  match hex4 h1 h2 h3 h4 with
                  | Some u =>
                      if (u <? 256)%N then push (ascii_of_N u) (chars rest2)
                      else None
                  | None => None
                  end
              | _ => None
              end
            else None
        end
      else if (n <? 32)%N then None
      else push c (chars rest)
  end.

Definition is_digit (c : ascii) : bool :=
  let n := N_of_ascii c in ((48 <=? n) && (n <=? 57))%N.

Fixpoint digits (acc : Z) (s : string) : Z * string :=
  match s with
  | String c rest =>
      if is_digit c
      then digits (acc * 10 + Z.of_N (N_of_ascii c - 48)) rest
      else (acc, s)
  | EmptyString => (acc, s)
  end.

(** No fraction and no exponent may follow an integer literal. *)
Definition integer_ends (s : string) : bool :=
  match s with
  | String c _ =>
      let n := N_of_ascii c in negb ((n =? 46) || (n =? 101) || (n =? 69))%N
  | EmptyString => true
  end.

Definition natural (s : string) : option (Z * string) :=
  match s with
  | String c rest =>
      if (N_of_ascii c =? 48)%N then
        match rest with
        | String d _ => if is_digit d then None
                        else if integer_ends rest then Some (0%Z, rest)
                        else None
        | EmptyString => Some (0%Z, rest)
        end
      else if is_digit c then
        let (z, rest') := digits 0 s in
        if integer_ends rest' then Some (z, rest') else None
      else None
  | EmptyString => None
  end.

Definition number (s : string) : option (jsval * string) :=
  match s with
  | String c rest =>
      if (N_of_ascii c =? 45)%N then
        match natural rest with
        | Some (z, r) => Some (JNum (- z), r)
        | None => None
        end
      else
        match natural s with
        | Some (z, r) => Some (JNum z, r)
        | None => None
        end
  | EmptyString => None
  end.

(** [word w v s]: the literal [w] at the head of [s] reads as [v]. *)
Fixpoint strip (w s : string) : option string :=
  match w, s with
  | EmptyString, _ => Some s
  | String a w', String b s' => if Ascii.eqb a b then strip w' s' else None
  | String _ _, EmptyString => None
  end.

Definition scalar (s : string) : option (jsval * string) :=
  match strip "true" s, strip "false" s, strip "null" s with
  | Some r, _, _ => Some (JBool true, r)
  | _, Some r, _ => Some (JBool false, r)
  | _, _, Some r => Some (JNull, r)
  | None, None, None => number s
  end.

(** The value at the head of [s].  [fuel] bounds the depth of the
    calls; [parse] supplies one unit per character of the text. *)
Fixpoint value (fuel : nat) (s : string) {struct fuel}
  : option (jsval * string) :=
  match fuel with
  | O => None
  | S fuel =>
      match skip_ws s with
      | EmptyString => None
      | String c rest =>
          let n := N_of_ascii c in
          if (n =? 123)%N then
            match skip_ws rest with
            | String d rest1 =>
                if (N_of_ascii d =? 125)%N then Some (JObj [], rest1)
                else members fuel [] (String d rest1)
            | EmptyString => None
            end
          else if (n =? 91)%N then
            match skip_ws rest with
            | String d rest1 =>
                if (N_of_ascii d =? 93)%N then Some (JArr [], rest1)
                else elements fuel [] (String d rest1)
            | EmptyString => None
            end
          else if (n =? 34)%N then
            match chars rest with
            | Some (str, rest1) => Some (JStr str, rest1)
            | None => None
            end
          else scalar (String c rest)
      end
  end

with elements (fuel : nat) (acc : list jsval) (s : string) {struct fuel}
  : option (jsval * string) :=
  match fuel with
  | O => None
  | S fuel =>
      match value fuel s with
      | Some (v, rest) =>
          match skip_ws rest with
          | String c rest1 =>
              let n := N_of_ascii c in
              if (n =? 44)%N then elements fuel (acc ++ [v]) rest1
              else if (n =? 93)%N then Some (JArr (acc ++ [v]), rest1)
              else None
          | EmptyString => None
          end
      | None => None
      end
  end

with members (fuel : nat) (acc : object) (s : string) {struct fuel}
  : option (jsval * string) :=
  match fuel with
  | O => None
  | S fuel =>
      match skip_ws s with
      | String q rest =>
          if (N_of_ascii q =? 34)%N then
            match chars rest with
            | Some (k, rest1) =>
                match skip_ws rest1 with
                | String c rest2 =>
                    if (N_of_ascii c =? 58)%N then
                      match value fuel rest2 with
                      | Some (v, rest3) =>
                          match skip_ws rest3 with
                          | String e rest4 =>
                              let n := N_of_ascii e in
                              if (n =? 44)%N
                              then members fuel (set k v acc) rest4
                              else if (n =? 125)%N
                              then Some (JObj (set k v acc), rest4)
                              else None
                          | EmptyString => None
                          end
                      | None => None
                      end
                    else None
                | EmptyString => None
                end
            | None => None
            end
          else None
      | EmptyString => None
      end
  end.

Definition parse (text : string) : option jsval :=
  match value (String.length text) text with
  | Some (v, rest) =>
      match skip_ws rest with
      | EmptyString => Some v
      | String _ _ => None
      end
  | None => None
  end.

End JSON.

(** ** Exceptions and results *)

(** What a [catch] clause can receive.  The source inspects a caught
    value in two ways: [e instanceof Error] and [e.message]. *)
Inductive thrown : Type :=
| ThrownError (message : string)
    (** an instance of [Error] with this message *)
| ThrownOther (message_text : string)
    (** any other value that has properties; the text is what
        interpolating its [message] gives *)
| ThrownNullish
    (** [null] or [undefined] *).

Inductive result (A : Type) : Type :=
| Ok (a : A)
| Throw (e : thrown).
Arguments Ok {A} a.
Arguments Throw {A} e.

(** ** Tool result envelopes *)

Record content_item : Type := { type : string; text : string }.

(** [isError] is [None] where the object literal has no such key. *)
Record envelope : Type :=
  { content : list content_item; isError : option bool }.

(** A tool definition of the ListTools answer. *)
Record Tool : Type :=
  { name : string; description : string; inputSchema : jsval }.

(** The two requests a server answers. *)
Inductive request : Type :=
| ListTools
| CallTool (name : string) (arguments : option object).

Inductive response : Type :=
| ToolList (tools : list Tool)
| ToolResult (result : envelope).

(** ** The messaging library's data *)

Inductive Peer : Type :=
| PeerUser (userId : Z)
| PeerChat (chatId : Z)
| PeerChannel (channelId : Z).

Record User : Type :=
  { user_id : option Z;
    firstName : option (nullable string);
    lastName : option (nullable string);
    user_username : option (nullable string);
    phone : option (nullable string);
    bot : option (nullable bool) }.

Record Chat : Type :=
  { chat_title : option (nullable string);
    chat_participantsCount : option (nullable Z) }.

Record Channel : Type :=
  { channel_title : option (nullable string);
    channel_username : option (nullable string);
    channel_participantsCount : option (nullable Z) }.

(** The classes an entity can be an instance of; [Api_other] stands for
    the remaining ones (forbidden or empty entities) and for no entity. *)
Inductive Entity : Type :=
| Api_User (u : User)
| Api_Chat (c : Chat)
| Api_Channel (c : Channel)
| Api_other.

Record MessageReplyHeader : Type :=
  { replyToMsgId : option (nullable Z) }.

Record Message : Type :=
  { msg_id : Z;
    message : option (nullable string);
    date : Z;
    fromId : option Peer;
    sender : option Entity;
    replyTo : option MessageReplyHeader;
    views : option (nullable Z);
    forwards : option (nullable Z) }.

Record Dialog : Type :=
  { dialog_id : option Z;
    title : option (nullable string);
    isUser : bool;
    isGroup : bool;
    isChannel : bool;
    unreadCount : Z;
    entity : Entity;
    dialog_message : option Message }.

(** [new TelegramClient(session, apiId, apiHash, {connectionRetries})]:
    a client is told apart by its constructor arguments only, so two
    clients built from the same arguments are one value here. *)
Record TelegramClient : Type :=
  { client_session : string;
    apiId : jsval;
    apiHash : jsval;
    connectionRetries : Z }.

(** ** The file system seen by the session store *)

Inductive file : Type :=
| Absent                  (** [existsSync] answers false *)
| Unreadable              (** it exists and [readFileSync] throws *)
| Content (data : string) (** it exists and reads as [data] *).

Record files : Type := { credentialsFile : file; sessionFile : file }.

(** ** Chat reader: calls that reach the messaging backend *)

Inductive call : Type :=
| Call_connect (c : TelegramClient)
| Call_getDialogs (c : TelegramClient) (limit : jsval)
| Call_getEntity (c : TelegramClient) (entityId : jsval)
| Call_getMessages (c : TelegramClient) (e : Entity) (limit offsetId : jsval)
| Call_invoke_SearchGlobal (c : TelegramClient) (q limit : jsval)
| Call_getMe (c : TelegramClient).

(** What the servers do not define themselves: engine built-ins whose
    text or value depends on the engine, and the messaging library.
    Each backend operation answers from the calls made so far, so that
    a backend may fail once and succeed later. *)
Record Platform : Type :=
  { parseInt : jsval -> jsval;
    destructure_TypeError : string -> string;
      (** message of the TypeError for destructuring [undefined],
          from the first property named *)
    read_TypeError : string -> string;
      (** message of the TypeError for reading a property of
          [null] or [undefined] *)
    new_StringSession : string -> option thrown;
      (** [Some e]: the constructor throws [e] *)
    new_TelegramClient : string -> jsval -> jsval -> option thrown;
    connect : list call -> TelegramClient -> result unit;
    client_getDialogs : list call -> TelegramClient -> jsval
                        -> result (list Dialog);
    client_getEntity : list call -> TelegramClient -> jsval -> result Entity;
    client_getMessages : list call -> TelegramClient -> Entity -> jsval
                         -> jsval -> result (list Message);
    client_invoke_SearchGlobal : list call -> TelegramClient -> jsval
                                 -> jsval -> result object;
    client_getMe : list call -> TelegramClient -> result User }.

(** The fields of the server object, the disk it reads, and the record
    of the backend calls made so far. *)
Record state : Type :=
  { client : option TelegramClient;
    session : string;
    disk : files;
    calls : list call }.

(** ** Computations that may throw *)

Section Throwing.
Variable S : Type.

Definition M (A : Type) : Type := S -> result A * S.

Definition ret {A} (a : A) : M A := fun st => (Ok a, st).
Definition throw {A} (e : thrown) : M A := fun st => (Throw e, st).

Definition bind {A B} (m : M A) (k : A -> M B) : M B :=
  fun st =>
    match m st with
    | (Ok a, st') => k a st'
    | (Throw e, st') => (Throw e, st')
    end.

(** [try { m } catch (e) { handler e }]. *)
Definition try_catch {A} (m : M A) (handler : thrown -> M A) : M A :=
  fun st =>
    match m st with
    | (Ok a, st') => (Ok a, st')
    | (Throw e, st') => handler e st'
    end.

Definition lift {A} (r : result A) : M A := fun st => (r, st).
End Throwing.

Arguments ret {S A} a.
Arguments throw {S A} e.
Arguments bind {S A B} m k.
Arguments try_catch {S A} m handler.
Arguments lift {S A} r.

Notation "x <- m ;; k" := (bind m (fun x => k))
  (at level 61, m at next level, right associativity).
Notation "m ;;; k" := (bind m (fun _ => k))
  (at level 61, right associativity).

(** [throw new Error(m)]. *)
Definition throw_Error {S A} (m : string) : M S A := throw (ThrownError m).

Definition text_envelope (t : string) (flag : option bool) : envelope :=
  {| content := [ {| type := "text"; text := t |} ]; isError := flag |}.

(** [error instanceof Error ? error.message : 'Unknown error']. *)
Definition errorMessage (e : thrown) : string :=
  match e with
  | ThrownError m => m
  | ThrownOther _ | ThrownNullish => "Unknown error"
  end.

(** ** The chat reader with [auto_connect] (first class of the file) *)

Module ChatReader.
Section Server.
Variable P : Platform.

Definition Method (A : Type) : Type := M state A.

Definition set_session (s : string) : Method unit :=
  fun st => (Ok tt, {| client := client st; session := s;
                       disk := disk st; calls := calls st |}).

Definition set_client (c : TelegramClient) : Method unit :=
  fun st => (Ok tt, {| client := Some c; session := session st;
                       disk := disk st; calls := calls st |}).

(** One awaited call on the client: the backend answers from the
    calls before this one, and the call is recorded. *)
Definition backend {A} (c : call) (reply : list call -> result A)
  : Method A :=
  fun st => (reply (calls st),
             {| client := client st; session := session st;
                disk := disk st; calls := calls st ++ [c] |}).

(** [const {first, ...} = args]. *)
Definition destructure (first : string) (args : option object)
  : Method object :=
  match args with
  | Some o => ret o
  | None => throw_Error (destructure_TypeError P first)
  end.

(** [`${prefix}${error.message}`] thrown as a new [Error] from a
    [catch (error: any)] clause. *)
Definition rethrow {A} (prefix : string) (e : thrown) : Method A :=
  match e with
  | ThrownError m => throw_Error (prefix ++ m)
  | ThrownOther t => throw_Error (prefix ++ t)
  | ThrownNullish => throw_Error (read_TypeError P "message")
  end.

(** [v.k] for a value that is neither [null] nor [undefined]. *)
Definition prop (k : string) (v : jsval) : jsval :=
  match v with
  | JObj o => get k o
  | _ => JUndefined
  end.

Definition loadCredentials (d : files) : jsval :=
  match credentialsFile d with
  | Content data =>
      match JSON.parse data with
      | Some v => v
      | None => JNull
      end
  | Unreadable => JNull
  | Absent => JNull
  end.

Definition loadSession (d : files) : string :=
  match sessionFile d with
  | Content data => Str.trim data
  | Unreadable => ""
  | Absent => ""
  end.

Definition errorContent (errorMessage : string) : envelope :=
  {| content := [ {| type := "text"; text := "Error: " ++ errorMessage |} ];
     isError := Some false |}.

Definition not_connected : string :=
  "Not connected to Telegram. Use connect_telegram first.".

Definition user_info (u : User) : jsval :=
  JObj [ ("firstName", opt_str (firstName u));
         ("lastName", opt_str (lastName u));
         ("username", opt_str (user_username u));
         ("phone", opt_str (phone u)) ].

Definition chat_info (c : Chat) : jsval :=
  JObj [ ("title", opt_str (chat_title c));
         ("participantsCount", opt_num (chat_participantsCount c)) ].

Definition channel_info (c : Channel) : jsval :=
  JObj [ ("title", opt_str (channel_title c));
         ("username", opt_str (channel_username c));
         ("participantsCount", opt_num (channel_participantsCount c)) ].

Definition lastMessage_info (m : Message) : jsval :=
  JObj [ ("id", JNum (msg_id m));
         ("message", opt_str (message m));
         ("date", JNum (date m)) ].

(** The callback of [dialogs.map] in [getDialogs]. *)
Definition chatInfo (dialog : Dialog) : object :=
  let chatInfo0 : object :=
    [ ("id", opt_toString (dialog_id dialog));
      ("title", opt_str (title dialog));
      ("isUser", JBool (isUser dialog));
      ("isGroup", JBool (isGroup dialog));
      ("isChannel", JBool (isChannel dialog));
      ("unreadCount", JNum (unreadCount dialog)) ] in
  let chatInfo1 :=
    match entity dialog with
    | Api_User u => set "user" (user_info u) chatInfo0
    | Api_Chat c => set "chat" (chat_info c) chatInfo0
    | Api_Channel c => set "channel" (channel_info c) chatInfo0
    | Api_other => chatInfo0
    end in
  match dialog_message dialog with
  | Some m => set "lastMessage" (lastMessage_info m) chatInfo1
  | None => chatInfo1
  end.

Definition getDialogs (args : option object) : Method envelope :=
  fun st =>
    match client st with
    | None => throw_Error not_connected st
    | Some c =>
        (o <- destructure "limit" args ;;
         let limit := with_default (JNum 100) (get "limit" o) in
         dialogs <- backend (Call_getDialogs c limit)
                      (fun log => client_getDialogs P log c limit) ;;
         let result := map (fun d => JObj (chatInfo d)) dialogs in
         ret (text_envelope (JSON.stringify (JArr result)) (Some false))) st
    end.

(** [(msg.fromId as PeerUser)?.userId?.toString()]: the cast checks
    nothing, and only a [PeerUser] has a [userId]. *)
Definition fromId_info (p : option Peer) : jsval :=
  match p with
  | Some (PeerUser userId) => JStr (Z_toString userId)
  | Some (PeerChat _) | Some (PeerChannel _) => JUndefined
  | None => JUndefined
  end.

(** [msg.sender ? {firstName, lastName, username} : null], the three
    properties read from whatever class the sender has. *)
Definition sender_info (s : option Entity) : jsval :=
  match s with
  | Some (Api_User u) =>
      JObj [ ("firstName", opt_str (firstName u));
             ("lastName", opt_str (lastName u));
             ("username", opt_str (user_username u)) ]
  | Some (Api_Channel c) =>
      JObj [ ("firstName", JUndefined);
             ("lastName", JUndefined);
             ("username", opt_str (channel_username c)) ]
  | Some (Api_Chat _) | Some Api_other =>
      JObj [ ("firstName", JUndefined);
             ("lastName", JUndefined);
             ("username", JUndefined) ]
  | None => JNull
  end.

Definition replyTo_info (r : option MessageReplyHeader) : jsval :=
  match r with
  | Some h => opt_num (replyToMsgId h)
  | None => JUndefined
  end.

(** The callback of [messages.map] in [getMessages]. *)
Definition messageInfo (msg : Message) : object :=
  [ ("id", JNum (msg_id msg));
    ("message", opt_str (message msg));
    ("date", JNum (date msg));
    ("fromId", fromId_info (fromId msg));
    ("sender", sender_info (sender msg));
    ("replyTo", replyTo_info (replyTo msg));
    ("views", opt_num (views msg));
    ("forwards", opt_num (forwards msg)) ].

Definition getMessages (args : option object) : Method envelope :=
  fun st =>
    match client st with
    | None => throw_Error not_connected st
    | Some c =>
        (o <- destructure "entityId" args ;;
         let entityId := get "entityId" o in
         let limit := with_default (JNum 50) (get "limit" o) in
         let offsetId := get "offsetId" o in
         try_catch
           (entity <- backend (Call_getEntity c entityId)
                        (fun log => client_getEntity P log c entityId) ;;
            messages <- backend (Call_getMessages c entity limit offsetId)
                          (fun log => client_getMessages P log c entity
                                        limit offsetId) ;;
            let result := map (fun m => JObj (messageInfo m)) messages in
            ret (text_envelope (JSON.stringify (JArr result)) None))
           (rethrow "Could not get messages: ")) st
    end.

Definition searchGlobal (args : option object) : Method envelope :=
  fun st =>
    match client st with
    | None => throw_Error not_connected st
    | Some c =>
        (o <- destructure "query" args ;;
         let query := get "query" o in
         let limit := with_default (JNum 50) (get "limit" o) in
         try_catch
           (result <- backend (Call_invoke_SearchGlobal c query limit)
                        (fun log => client_invoke_SearchGlobal P log c
                                      query limit) ;;
            ret (text_envelope (JSON.stringify (JObj result)) (Some false)))
           (rethrow "Search failed: ")) st
    end.

Definition getMe : Method envelope :=
  fun st =>
    match client st with
    | None => throw_Error not_connected st
    | Some c =>
        (me <- backend (Call_getMe c) (fun log => client_getMe P log c) ;;
         ret (text_envelope
                (JSON.stringify
                   (JObj [ ("id", opt_toString (user_id me));
                           ("firstName", opt_str (firstName me));
                           ("lastName", opt_str (lastName me));
                           ("username", opt_str (user_username me));
                           ("phone", opt_str (phone me));
                           ("isBot", opt_bool (bot me)) ]))
                (Some false))) st
    end.

(** [new StringSession(s)] assigned to [this.session]. *)
Definition assign_session (s : string) : Method unit :=
  match new_StringSession P s with
  | Some e => throw e
  | None => set_session s
  end.

(** [new TelegramClient(this.session, apiId, apiHash,
    {connectionRetries: 5})] assigned to [this.client]. *)
Definition assign_client (id hash : jsval) : Method TelegramClient :=
  fun st =>
    match new_TelegramClient P (session st) id hash with
    | Some e => throw e st
    | None =>
        let c := {| client_session := session st; apiId := id;
                    apiHash := hash; connectionRetries := 5 |} in
        (set_client c ;;; ret c) st
    end.

Definition autoConnect : Method envelope :=
  fun st =>
    let credentials := loadCredentials (disk st) in
    if negb (truthy credentials) then
      throw_Error
        "No saved credentials found. Please run authentication script first."
        st
    else
      let sessionString := loadSession (disk st) in
      if negb (truthy (JStr sessionString)) then
        throw_Error
          "No saved session found. Please run authentication script first."
          st
      else
        (assign_session sessionString ;;;
         c <- assign_client (parseInt P (prop "apiId" credentials))
                (prop "apiHash" credentials) ;;
         try_catch
           (backend (Call_connect c) (fun log => connect P log c) ;;;
            ret (text_envelope
                   "Successfully connected to Telegram using saved session!"
                   None))
           (rethrow "Auto-connection failed: ")) st.

Definition connectTelegram (args : option object) : Method envelope :=
  o <- destructure "apiId" args ;;
  let apiId := get "apiId" o in
  let apiHash := get "apiHash" o in
  fun st =>
    let sessionString := loadSession (disk st) in
    (assign_session sessionString ;;;
     c <- assign_client (parseInt P apiId) apiHash ;;
     try_catch
       (backend (Call_connect c) (fun log => connect P log c) ;;;
        ret (text_envelope
               "Successfully connected to Telegram using existing session!"
               None))
       (fun _ =>
          ret (text_envelope
                 "Connection failed. Please ensure you have run the authentication script first to save your session."
                 None))) st.

(** The array literal of the ListTools handler, as far as the source
    spells it out. *)
Definition tools : list Tool :=
  [ {| name := "auto_connect";
       description := "Auto-connect using saved credentials and session";
       inputSchema :=
         JObj [ ("type", JStr "object"); ("properties", JObj []) ] |};
    {| name := "connect_telegram";
       description := "Connect with manual credentials (requires pre-auth)";
       inputSchema :=
         JObj [ ("type", JStr "object");
                ("properties",
                 JObj [ ("apiId", JObj [ ("type", JStr "string") ]);
                        ("apiHash", JObj [ ("type", JStr "string") ]);
                        ("phoneNumber", JObj [ ("type", JStr "string") ]) ]);
                ("required",
                 JArr [ JStr "apiId"; JStr "apiHash"; JStr "phoneNumber" ])
              ] |} ].

(** The ListTools handler: it reads no field and no argument. *)
Definition listTools (st : state) : list Tool * state := (tools, st).

(** The [switch] of the CallTool handler. *)
Definition dispatch (name : string) (args : option object)
  : Method envelope :=
  if String.eqb name "auto_connect" then autoConnect
  else if String.eqb name "connect_telegram" then connectTelegram args
  else if String.eqb name "get_dialogs" then getDialogs args
  else if String.eqb name "get_messages" then getMessages args
  else if String.eqb name "search_global" then searchGlobal args
  else if String.eqb name "get_me" then getMe
  else ret (errorContent ("Unknown tool: " ++ name)).

(** The CallTool handler: [request.params] is [{name, arguments}]. *)
Definition callTool (name : string) (args : option object) (st : state)
  : envelope * state :=
  match dispatch name args st with
  | (Ok env, st') => (env, st')
  | (Throw error, st') => (errorContent (errorMessage error), st')
  end.

Definition case_labels : list string :=
  [ "auto_connect"; "connect_telegram"; "get_dialogs"; "get_messages";
    "search_global"; "get_me" ].

(** The tools that fetch data through the client. *)
Definition data_tools : list string :=
  [ "get_dialogs"; "get_messages"; "search_global"; "get_me" ].

(** The server after its constructor: no client, an empty session. *)
Definition start (d : files) : state :=
  {| client := None; session := ""; disk := d; calls := [] |}.

Definition handle (r : request) (st : state) : response * state :=
  match r with
  | ListTools => let (l, st') := listTools st in (ToolList l, st')
  | CallTool name args =>
      let (env, st') := callTool name args st in (ToolResult env, st')
  end.

(** Requests are answered one at a time, in order. *)
Fixpoint serve (rs : list request) (st : state) : list response * state :=
  match rs with
  | [] => ([], st)
  | r :: rest =>
      let (a, st1) := handle r st in
      let (answers, st2) := serve rest st1 in
      (a :: answers, st2)
  end.

End Server.
End ChatReader.

(** ** The chat reader without [auto_connect] (second class of the file)

    Its [loadSession], [errorContent], [getDialogs], [getMessages],
    [searchGlobal], [getMe] and ListTools handler repeat the text of the
    first class; [connectTelegram] also destructures [phoneNumber], and
    the [switch] has no [auto_connect] case. *)

Module ChatReader2.
Section Server.
Variable P : Platform.

Definition connectTelegram (args : option object)
  : ChatReader.Method envelope :=
  o <- ChatReader.destructure P "apiId" args ;;
  let apiId := get "apiId" o in
  let apiHash := get "apiHash" o in
  let phoneNumber := get "phoneNumber" o in
  fun st =>
    let sessionString := ChatReader.loadSession (disk st) in
    (ChatReader.assign_session P sessionString ;;;
     c <- ChatReader.assign_client P (parseInt P apiId) apiHash ;;
     try_catch
       (ChatReader.backend (Call_connect c) (fun log => connect P log c) ;;;
        ret (text_envelope
               "Successfully connected to Telegram using existing session!"
               None))
       (fun _ =>
          ret (text_envelope
                 "Connection failed. Please ensure you have run the authentication script first to save your session."
                 None))) st.

Definition dispatch (name : string) (args : option object)
  : ChatReader.Method envelope :=
  if String.eqb name "connect_telegram" then connectTelegram args
  else if String.eqb name "get_dialogs" then ChatReader.getDialogs P args
  else if String.eqb name "get_messages" then ChatReader.getMessages P args
  else if String.eqb name "search_global" then ChatReader.searchGlobal P args
  else if String.eqb name "get_me" then ChatReader.getMe P
  else ret (ChatReader.errorContent ("Unknown tool: " ++ name)).

Definition callTool (name : string) (args : option object) (st : state)
  : envelope * state :=
  match dispatch name args st with
  | (Ok env, st') => (env, st')
  | (Throw error, st') =>
      (ChatReader.errorContent (errorMessage error), st')
  end.

Definition listTools (st : state) : list Tool * state :=
  (ChatReader.tools, st).

Definition case_labels : list string :=
  [ "connect_telegram"; "get_dialogs"; "get_messages"; "search_global";
    "get_me" ].

End Server.
End ChatReader2.

(** ** The bot-API server (third class of the file) *)

Module BotApi.

Record SentMessage : Type := { message_id : Z }.

Inductive call : Type :=
| Call_sendMessage (chatId message : jsval) (options : object)
| Call_getUpdates (limit : jsval)
| Call_sendPhoto (chatId photo : jsval) (options : object).

Record Platform : Type :=
  { destructure_TypeError : string -> string;
    sendMessage : list call -> jsval -> jsval -> object
                  -> result SentMessage;
    getUpdates : list call -> jsval -> result (list object);
    sendPhoto : list call -> jsval -> jsval -> object
                -> result SentMessage }.

(** The server object has no field that changes; the state is the
    record of the calls made on the bot. *)
Definition state : Type := list call.

Section Server.
Variable P : Platform.

Definition Method (A : Type) : Type := M state A.

Definition backend {A} (c : call) (reply : list call -> result A)
  : Method A :=
  fun log => (reply log, (log ++ [c])%list).

Definition destructure (first : string) (args : option object)
  : Method object :=
  match args with
  | Some o => ret o
  | None => throw_Error (destructure_TypeError P first)
  end.

Definition errorContent (errorMessage : string) : envelope :=
  {| content := [ {| type := "text"; text := "Error: " ++ errorMessage |} ];
     isError := None |}.

Definition sendTelegramMessage (args : option object) : Method envelope :=
  o <- destructure "chatId" args ;;
  let chatId := get "chatId" o in
  let message := get "message" o in
  let parseMode := get "parseMode" o in
  let options : object :=
    if truthy parseMode then set "parse_mode" parseMode [] else [] in
  result <- backend (Call_sendMessage chatId message options)
              (fun log => sendMessage P log chatId message options) ;;
  ret (text_envelope
         ("Message sent successfully! Message ID: "
            ++ Z_toString (message_id result))
         None).

Definition getTelegramUpdates (args : option object) : Method envelope :=
  o <- destructure "limit" args ;;
  let limit := with_default (JNum 10) (get "limit" o) in
  updates <- backend (Call_getUpdates limit)
               (fun log => getUpdates P log limit) ;;
  ret (text_envelope (JSON.stringify (JArr (map JObj updates))) None).

Definition sendTelegramPhoto (args : option object) : Method envelope :=
  o <- destructure "chatId" args ;;
  let chatId := get "chatId" o in
  let photo := get "photo" o in
  let caption := get "caption" o in
  let options : object :=
    if truthy caption then set "caption" caption [] else [] in
  result <- backend (Call_sendPhoto chatId photo options)
              (fun log => sendPhoto P log chatId photo options) ;;
  ret (text_envelope
         ("Photo sent successfully! Message ID: "
            ++ Z_toString (message_id result))
         None).

Definition dispatch (name : string) (args : option object)
  : Method envelope :=
  if String.eqb name "send_telegram_message" then sendTelegramMessage args
  else if String.eqb name "get_telegram_updates" then getTelegramUpdates args
  else if String.eqb name "send_telegram_photo" then sendTelegramPhoto args
  else
    let errorMessage := "Unknown tool: " ++ name in
    ret (errorContent errorMessage).

Definition callTool (name : string) (args : option object) (st : state)
  : envelope * state :=
  match dispatch name args st with
  | (Ok env, st') => (env, st')
  | (Throw error, st') => (errorContent (errorMessage error), st')
  end.

Definition case_labels : list string :=
  [ "send_telegram_message"; "get_telegram_updates"; "send_telegram_photo" ].

Definition string_property (d : string) : jsval :=
  JObj [ ("type", JStr "string"); ("description", JStr d) ].

Definition tools : list Tool :=
  [ {| name := "send_telegram_message";
       description := "Send a message to a Telegram chat";
       inputSchema :=
         JObj [ ("type", JStr "object");
                ("properties",
                 JObj [ ("chatId",
                         string_property "Chat ID to send message to");
                        ("message", string_property "Message text to send");
                        ("parseMode",
                         JObj [ ("type", JStr "string");
                                ("description",
                                 JStr "Parse mode (HTML, Markdown, MarkdownV2)");
                                ("enum",
                                 JArr [ JStr "HTML"; JStr "Markdown";
                                        JStr "MarkdownV2" ]) ]) ]);
                ("required", JArr [ JStr "chatId"; JStr "message" ]) ] |};
    {| name := "get_telegram_updates";
       description := "Get recent updates from Telegram bot";
       inputSchema :=
         JObj [ ("type", JStr "object");
                ("properties",
                 JObj [ ("limit",
                         JObj [ ("type", JStr "number");
                                ("description",
                                 JStr "Number of updates to retrieve (1-100)");
                                ("minimum", JNum 1);
                                ("maximum", JNum 100) ]) ]);
                ("required", JArr []) ] |};
    {| name := "send_telegram_photo";
       description := "Send a photo to a Telegram chat";
       inputSchema :=
         JObj [ ("type", JStr "object");
                ("properties",
                 JObj [ ("chatId",
                         string_property "Chat ID to send photo to");
                        ("photo", string_property "Photo URL or file path");
                        ("caption", string_property "Photo caption") ]);
                ("required", JArr [ JStr "chatId"; JStr "photo" ]) ] |} ].

Definition listTools (st : state) : list Tool * state := (tools, st).

End Server.
End BotApi.

(** ** The authentication script: what it leaves on disk *)

Module TelegramAuthenticator.

(** The credentials object literal [{apiId, apiHash, phoneNumber}],
    each the answer to a prompt. *)
Definition credentials (apiId apiHash phoneNumber : string) : jsval :=
  JObj [ ("apiId", JStr apiId);
         ("apiHash", JStr apiHash);
         ("phoneNumber", JStr phoneNumber) ].

(** The two [writeFileSync] calls of [authenticate], made when
    [session.save()] is a non-empty string; both writes succeed. *)
(** The files after both writes. *)
Definition written (apiId apiHash phoneNumber : string)
           (sessionString : string) : files :=
  {| credentialsFile :=
       Content (JSON.stringify (credentials apiId apiHash phoneNumber));
     sessionFile := Content sessionString |}.

Definition authenticate_save (apiId apiHash phoneNumber : string)
           (sessionString : string) (d : files) : files :=
  if truthy (JStr sessionString)
  then written apiId apiHash phoneNumber sessionString
  else d.

(** The credentials file spelled out: two-space indentation, one
    property per line. *)
Definition credentials_text (a h p : string) : string :=
  "{" ++ JSON.newline
   ++ "  " ++ JSON.quote "apiId" ++ ": " ++ JSON.quote a
   ++ "," ++ JSON.newline
   ++ "  " ++ JSON.quote "apiHash" ++ ": " ++ JSON.quote h
   ++ "," ++ JSON.newline
   ++ "  " ++ JSON.quote "phoneNumber" ++ ": " ++ JSON.quote p
   ++ JSON.newline ++ "}".

End TelegramAuthenticator.

(** ** Vocabulary of the statements *)

(** An envelope of a failure path: one text element that starts with
    [Error: ], and a flag that is false or missing. *)
Definition failure_envelope (msg : string) (env : envelope) : Prop :=
  content env = [ {| type := "text"; text := "Error: " ++ msg |} ]
  /\ (isError env = Some false \/ isError env = None).

(** The nested detail property of a conversation object follows the
    class of the entity: it is the object of that class's fields, and
    no other detail property is there. *)
Definition detail_matches_entity (d : Dialog) : Prop :=
  let o := ChatReader.chatInfo d in
  match entity d with
  | Api_User u =>
      get "user" o
      = JObj [ ("firstName", opt_str (firstName u));
               ("lastName", opt_str (lastName u));
               ("username", opt_str (user_username u));
               ("phone", opt_str (phone u)) ]
      /\ has_key "chat" o = false /\ has_key "channel" o = false
  | Api_Chat c =>
      get "chat" o
      = JObj [ ("title", opt_str (chat_title c));
               ("participantsCount", opt_num (chat_participantsCount c)) ]
      /\ has_key "user" o = false /\ has_key "channel" o = false
  | Api_Channel c =>
      get "channel" o
      = JObj [ ("title", opt_str (channel_title c));
               ("username", opt_str (channel_username c));
               ("participantsCount",
                opt_num (channel_participantsCount c)) ]
      /\ has_key "user" o = false /\ has_key "chat" o = false
  | Api_other =>
      has_key "user" o = false /\ has_key "chat" o = false
      /\ has_key "channel" o = false
  end.

(** The members [JSON.serialize] writes for the properties of an
    object, one text per property that is not [undefined]. *)
Fixpoint written_members (inner : string) (props : object) : list string :=
  match props with
  | [] => []
  | (k, JUndefined) :: rest => written_members inner rest
  | (k, x) :: rest =>
      (JSON.quote k ++ ": " ++ JSON.serialize inner x)
        :: written_members inner rest
  end.

(** The text holds the key [k] followed by the opening of an object. *)
Definition writes_object (k : string) (text : string) : Prop :=
  Str.contains (JSON.quote k ++ ": {") text = true.

(** The JSON text of a conversation object, at any indentation, holds
    the detail key of the entity's class with an object behind it. *)
Definition detail_is_written (d : Dialog) : Prop :=
  forall ind,
    let text := JSON.serialize ind (JObj (ChatReader.chatInfo d)) in
    match entity d with
    | Api_User _ => writes_object "user" text
    | Api_Chat _ => writes_object "chat" text
    | Api_Channel _ => writes_object "channel" text
    | Api_other => True
    end.

(** The detail key of a dialog's entity class, if it has one. *)
Definition detail_key (d : Dialog) : option string :=
  match entity d with
  | Api_User _ => Some "user"
  | Api_Chat _ => Some "chat"
  | Api_Channel _ => Some "channel"
  | Api_other => None
  end.

(** The envelope has one content element, a text element, and its
    text contains [needle]. *)
Definition says (needle : string) (env : envelope) : Prop :=
  exists t,
    content env = [ {| type := "text"; text := t |} ]
    /\ Str.contains needle t = true.

(** The two messages of [autoConnect]. *)
Definition no_credentials : string :=
  "No saved credentials found. Please run authentication script first.".

Definition no_session : string :=
  "No saved session found. Please run authentication script first.".

(** A tool definition as the object sent to the caller. *)
Definition Tool_json (t : Tool) : jsval :=
  JObj [ ("name", JStr (name t));
         ("description", JStr (description t));
         ("inputSchema", inputSchema t) ].

(** ** The built-in [parseInt]

    One argument, so the radix is 10, or 16 behind the prefix [0x].
    The result is the number the engine gives as long as it is below
    2^1024; from there on the engine has [Infinity], which the value
    model lacks. *)

Module Number.

(** ToString; an array joins its elements with commas, [null] and
    [undefined] elements as empty text. *)
Fixpoint ToString (v : jsval) {struct v} : string :=
  match v with
  | JUndefined => "undefined"
  | JNull => "null"
  | JBool b => if b then "true" else "false"
  | JNum z => Z_toString z
  | JNaN => "NaN"
  | JStr s => s
  | JArr items =>
      String.concat ","
        ((fix each (l : list jsval) : list string :=
            match l with
            | [] => []
            | JUndefined :: rest => "" :: each rest
            | JNull :: rest => "" :: each rest
            | x :: rest => ToString x :: each rest
            end) items)
  | JObj _ => "[object Object]"
  end.

Definition digit_value (radix : Z) (c : ascii) : option Z :=
  let n := Z.of_N (N_of_ascii c) in
  let d :=
    if ((48 <=? n) && (n <=? 57))%Z then Some (n - 48)%Z
    else if ((97 <=? n) && (n <=? 122))%Z then Some (n - 87)%Z
    else if ((65 <=? n) && (n <=? 90))%Z then Some (n - 55)%Z
    else None in
  match d with
  | Some d => if (d <? radix)%Z then Some d else None
  | None => None
  end.

(** The value of the longest run of digits at the head of [s]; [None]
    when there is no digit. *)
Fixpoint read_digits (radix : Z) (acc : option Z) (s : string) : option Z :=
  match s with
  | EmptyString => acc
  | String c rest =>
      match digit_value radix c with
      | Some d =>
          read_digits radix
            (Some (match acc with
                   | Some a => a * radix + d
                   | None => d
                   end)%Z) rest
      | None => acc
      end
  end.

(** The double nearest to a natural number: 53 significant bits, ties
    to even. *)
Definition to_double (n : Z) : Z :=
  let bits := (Z.log2 n + 1)%Z in
  if (bits <=? 53)%Z then n
  else
    let sh := (bits - 53)%Z in
    let q := Z.shiftr n sh in
    let r := (n - Z.shiftl q sh)%Z in
    let half := Z.shiftl 1 (sh - 1) in
    let up := ((half <? r) || ((r =? half) && Z.odd q))%Z in
    Z.shiftl (if up then q + 1 else q)%Z sh.

Definition parseInt (v : jsval) : jsval :=
  let s := Str.trimStart (ToString v) in
  let signed :=
    match s with
    | String c rest =>
        if (N_of_ascii c =? 45)%N then (true, rest)
        else if (N_of_ascii c =? 43)%N then (false, rest)
        else (false, s)
    | EmptyString => (false, s)
    end in
  let based :=
    match snd signed with
    | String z (String x rest) =>
        if ((N_of_ascii z =? 48)
            && ((N_of_ascii x =? 120) || (N_of_ascii x =? 88)))%N
        then (16%Z, rest)
        else (10%Z, snd signed)
    | other => (10%Z, other)
    end in
  match read_digits (fst based) None (snd based) with
  | None => JNaN
  | Some n => JNum (if fst signed then - to_double n else to_double n)%Z
  end.

End Number.

(** ** Backends and disks used in the examples *)

Module Fixture.

(** A backend with fixed answers. *)
Definition backend (connected : result unit)
           (dialogs : result (list Dialog))
           (messages : result (list Message))
           (me : result User) : Platform :=
  {| parseInt := Number.parseInt;
     destructure_TypeError := fun k =>
       "Cannot destructure property '" ++ k
         ++ "' of 'args' as it is undefined.";
     read_TypeError := fun k =>
       "Cannot read properties of undefined (reading '" ++ k ++ "')";
     new_StringSession := fun _ => None;
     new_TelegramClient := fun _ _ _ => None;
     connect := fun _ _ => connected;
     client_getDialogs := fun _ _ _ => dialogs;
     client_getEntity := fun _ _ _ => Ok Api_other;
     client_getMessages := fun _ _ _ _ _ => messages;
     client_invoke_SearchGlobal := fun _ _ _ _ => Ok [];
     client_getMe := fun _ _ => me |}.

Definition alice : User :=
  {| user_id := Some 555%Z; firstName := Some (Val "Alice");
     lastName := Some Null; user_username := Some (Val "alice");
     phone := None; bot := Some (Val false) |}.

Definition news : Channel :=
  {| channel_title := Some (Val "News");
     channel_username := Some (Val "news");
     channel_participantsCount := Some (Val 1200%Z) |}.

Definition from_alice : Message :=
  {| msg_id := 10; message := Some (Val "hello"); date := 1700000000;
     fromId := Some (PeerUser 555); sender := Some (Api_User alice);
     replyTo := None; views := None; forwards := None |}.

Definition channel_post : Message :=
  {| msg_id := 11; message := Some (Val "headline"); date := 1700000100;
     fromId := Some (PeerChannel 1001); sender := Some (Api_Channel news);
     replyTo := None; views := Some (Val 42%Z);
     forwards := Some (Val 0%Z) |}.

Definition two_dialogs : list Dialog :=
  [ {| dialog_id := Some 555%Z; title := Some (Val "Alice"); isUser := true;
       isGroup := false; isChannel := false; unreadCount := 0;
       entity := Api_User alice; dialog_message := None |};
    {| dialog_id := Some (-1001)%Z; title := Some (Val "News");
       isUser := false;
       isGroup := false; isChannel := true; unreadCount := 3;
       entity := Api_Channel news; dialog_message := Some channel_post |} ].

(** Every backend call succeeds. *)
Definition online : Platform :=
  backend (Ok tt) (Ok two_dialogs) (Ok [from_alice; channel_post])
          (Ok alice).

(** [connect] is refused and nothing can be fetched. *)
Definition offline : Platform :=
  backend (Throw (ThrownError "connect ECONNREFUSED"))
          (Throw (ThrownError "Cannot send requests while disconnected"))
          (Throw (ThrownError "Cannot send requests while disconnected"))
          (Throw (ThrownError "Cannot send requests while disconnected")).

(** [connect] succeeds and every later fetch is rate limited. *)
Definition limited : Platform :=
  backend (Ok tt)
          (Throw (ThrownError "FLOOD_WAIT_30"))
          (Throw (ThrownError "FLOOD_WAIT_30"))
          (Throw (ThrownError "FLOOD_WAIT_30")).

Definition no_files : files :=
  {| credentialsFile := Absent; sessionFile := Absent |}.

(** The disk left by the authentication script. *)
Definition saved_files : files :=
  TelegramAuthenticator.authenticate_save "123" "abc" "+10000000000"
    "1BQANOTEuMTA4LjU2" no_files.

Definition credentials_only : files :=
  {| credentialsFile := credentialsFile saved_files;
     sessionFile := Content "   " |}.

Definition manual_args : object :=
  [ ("apiId", JStr "123"); ("apiHash", JStr "abc");
    ("phoneNumber", JStr "+10000000000") ].

Definition manual_client : TelegramClient :=
  {| client_session := ""; apiId := JNum 123; apiHash := JStr "abc";
     connectionRetries := 5 |}.

Definition connected : state :=
  {| client := Some manual_client; session := ""; disk := no_files;
     calls := [ Call_connect manual_client ] |}.

Definition bot : BotApi.Platform :=
  {| BotApi.destructure_TypeError := destructure_TypeError online;
     BotApi.sendMessage := fun _ _ _ _ => Ok {| BotApi.message_id := 7 |};
     BotApi.getUpdates := fun _ _ => Ok [];
     BotApi.sendPhoto := fun _ _ _ _ =>
       Throw (ThrownError "ETELEGRAM: 400 Bad Request") |}.

End Fixture.

(** ** Process lifecycle: the interrupt handlers *)

Module Lifecycle.

Inductive event : Type :=
| Disconnect (c : TelegramClient) (** [await this.client.disconnect()] *)
| Close                           (** [await this.server.close()] *)
| Exit (code : Z)                 (** [process.exit(code)] *).


Definition Handler (A : Type) : Type := M (list event) A.

(** One step of a handler: the event happens, then the awaited call
    returns or throws. *)
Definition perform (e : event) (outcome : option thrown) : Handler unit :=
  fun log =>
    (match outcome with
     | None => Ok tt
     | Some t => Throw t
     end, (log ++ [e])%list).



End Lifecycle.

(** ** The authentication script as a whole

    The prompts and the console lines are left out; what is kept is
    what the script does to the disk and to its client and readline
    interface.  Each of the two [writeFileSync] calls returns or
    throws; a write that throws leaves the file as the file system
    left it (untouched, emptied or partly written). *)

Module AuthenticationFlow.

(** What a [writeFileSync] call does. *)
Inductive write_outcome : Type :=
| Written                               (** the file holds the data *)
| WriteFails (e : thrown) (rest : file) (** it throws [e]; the file is [rest] *).

(** The answers typed in, and what the library calls do. *)
Record World : Type :=
  { answer_apiId : string;
    answer_apiHash : string;
    answer_phoneNumber : string;
    construct : option thrown;   (** [new TelegramClient(...)] *)
    start : option thrown;       (** [await client.start(...)] *)
    save : string;               (** [session.save()] *)
    write_session : write_outcome;
      (** [writeFileSync('./telegram_session.txt', ...)] *)
    write_credentials : write_outcome;
      (** [writeFileSync('./telegram_credentials.json', ...)] *)
    disconnect : option thrown   (** [await client.disconnect()] *) }.

Inductive event : Type :=
| Started               (** [client.start] was called *)
| Disconnected          (** [client.disconnect] was called *)
| Failed (e : thrown)   (** [console.error('Authentication failed:', e)] *)
| Closed                (** [this.rl.close()] *).

Definition Script (A : Type) : Type := M (files * list event) A.

Definition perform (e : event) (outcome : option thrown) : Script unit :=
  fun st =>
    (match outcome with
     | None => Ok tt
     | Some t => Throw t
     end, (fst st, (snd st ++ [e])%list)).

Definition construct_client (w : World) : Script unit :=
  match construct w with
  | None => ret tt
  | Some e => throw e
  end.

(** [fs.writeFileSync('./telegram_session.txt', data)] *)
Definition writeFileSync_session (data : string) (o : write_outcome)
  : Script unit :=
  fun st =>
    match o with
    | Written =>
        (Ok tt,
         ({| credentialsFile := credentialsFile (fst st);
             sessionFile := Content data |}, snd st))
    | WriteFails e rest =>
        (Throw e,
         ({| credentialsFile := credentialsFile (fst st);
             sessionFile := rest |}, snd st))
    end.

(** [fs.writeFileSync('./telegram_credentials.json', data)] *)
Definition writeFileSync_credentials (data : string) (o : write_outcome)
  : Script unit :=
  fun st =>
    match o with
    | Written =>
        (Ok tt,
         ({| credentialsFile := Content data;
             sessionFile := sessionFile (fst st) |}, snd st))
    | WriteFails e rest =>
        (Throw e,
         ({| credentialsFile := rest;
             sessionFile := sessionFile (fst st) |}, snd st))
    end.

(** The block under the comment [Save session]: the session file is
    written first, the credentials file second, and only when
    [session.save()] is truthy. *)
Definition save_files (w : World) : Script unit :=
  if truthy (JStr (save w))
  then
    writeFileSync_session (save w) (write_session w) ;;;
    writeFileSync_credentials
      (JSON.stringify
         (TelegramAuthenticator.credentials (answer_apiId w)
            (answer_apiHash w) (answer_phoneNumber w)))
      (write_credentials w)
  else ret tt.

(** [try { m } finally { f }] for an [f] that does not throw. *)
Definition finally {S A} (m : M S A) (f : M S unit) : M S A :=
  fun st =>
    match m st with
    | (r, st') => (r, snd (f st'))
    end.

Definition authenticate (w : World) : Script unit :=
  finally
    (try_catch
       (construct_client w ;;;
        perform Started (start w) ;;;
        save_files w ;;;
        perform Disconnected (disconnect w))
       (fun error => perform (Failed error) None))
    (perform Closed None).

End AuthenticationFlow.

(** ** Relations between the state before and after a method *)

(** [m] takes every state to one related to it by [R]. *)
Definition respects {A} (R : state -> state -> Prop) (m : M state A) : Prop :=
  forall st, R st (snd (m st)).

Definition same_disk (st st' : state) : Prop := disk st' = disk st.

Definition calls_extended (st st' : state) : Prop :=
  exists new, calls st' = (calls st ++ new)%list.

Definition client_kept (st st' : state) : Prop :=
  client st <> None -> client st' <> None.

(** Only the record of backend calls may differ. *)
Definition only_calls_differ (st st' : state) : Prop :=
  client st' = client st /\ session st' = session st
  /\ disk st' = disk st /\ calls_extended st st'.

Definition connection_failed : string :=
  "Connection failed. Please ensure you have run the authentication script first to save your session.".

(** The message a [catch (error: any)] clause of the chat reader
    throws on: the prefix and [error.message], or the TypeError of
    reading [message] from [null] or [undefined]. *)
Definition wrapped (P : Platform) (prefix : string) (e : thrown) : string :=
  match e with
  | ThrownError m => prefix ++ m
  | ThrownOther t => prefix ++ t
  | ThrownNullish => read_TypeError P "message"
  end.


(** ** More backends for the examples *)

Module Scenario.

(** [P] with other constructors. *)
Definition with_constructors (s : string -> option thrown)
           (c : string -> jsval -> jsval -> option thrown) (P : Platform)
  : Platform :=
  {| parseInt := parseInt P;
     destructure_TypeError := destructure_TypeError P;
     read_TypeError := read_TypeError P;
     new_StringSession := s;
     new_TelegramClient := c;
     connect := connect P;
     client_getDialogs := client_getDialogs P;
     client_getEntity := client_getEntity P;
     client_getMessages := client_getMessages P;
     client_invoke_SearchGlobal := client_invoke_SearchGlobal P;
     client_getMe := client_getMe P |}.

(** A library that rejects every non-empty session string. *)
Definition strict_session : Platform :=
  with_constructors
    (fun s => if String.eqb s "" then None
              else Some (ThrownError "Not a valid string"))
    (fun _ _ _ => None) Fixture.online.

(** A library that rejects the credentials. *)
Definition strict_client : Platform :=
  with_constructors (fun _ => None)
    (fun _ _ _ =>
       Some (ThrownError "Your API ID or Hash cannot be empty or undefined"))
    Fixture.online.

(** [P] with another entity resolver. *)
Definition with_getEntity
           (f : list call -> TelegramClient -> jsval -> result Entity)
           (P : Platform) : Platform :=
  {| parseInt := parseInt P;
     destructure_TypeError := destructure_TypeError P;
     read_TypeError := read_TypeError P;
     new_StringSession := new_StringSession P;
     new_TelegramClient := new_TelegramClient P;
     connect := connect P;
     client_getDialogs := client_getDialogs P;
     client_getEntity := f;
     client_getMessages := client_getMessages P;
     client_invoke_SearchGlobal := client_invoke_SearchGlobal P;
     client_getMe := client_getMe P |}.

(** No entity can be resolved. *)
Definition unresolved : Platform :=
  with_getEntity
    (fun _ _ _ => Throw (ThrownError "Cannot find any entity"))
    Fixture.online.

(** The two checks the library's constructors start with: a session
    string is empty or begins with the version digit, and neither the
    id nor the hash is falsy. *)
Definition library : Platform :=
  with_constructors
    (fun s =>
       match s with
       | EmptyString => None
       | String c _ =>
           if (N_of_ascii c =? 49)%N then None
           else Some (ThrownError "Not a valid string")
       end)
    (fun _ id hash =>
       if truthy id && truthy hash then None
       else Some (ThrownError
                    "Your API ID or Hash cannot be empty or undefined"))
    Fixture.online.

(** A session string of the shape [session.save()] returns: the
    version digit and 352 characters of base64. *)
Definition session_token : string :=
  "1ApWapzMBuwUWJzhJWmt8jZ6vwNHi8wQVJjdIWWp7jJ2uv9Dh8gMUJTZHWGl6i5ytvs/g8QITJDVGV2h5ipusvc7f8AESIzRFVmd4iZqrvM3e7wARIjNEVWZ3iJmqu8zd7v8QITJDVGV2h5ipusvc7f4PIDFCU2R1hpeoucrb7P0OHzBBUmN0hZanuMna6/wNHi9AUWJzhJWmt8jZ6vsMHS4/UGFyg5SltsfY6foLHC0+T2BxgpOktcbX6PkKGyw9Tl9wgZKjtMXW5/gJGis8TV5vgJGis8TV5vcIGSo7TF1uf5ChssPU5fYHGCk6S1xtfo+gscLT5PUGFyg5SltsfY6fsMHS4/Q=".

(** The disk after authentication with that token; the file ends with
    a line break. *)
Definition authenticated_files : files :=
  TelegramAuthenticator.written "123" "abc" "+10000000000"
    (session_token ++ JSON.newline).

Definition authenticated_client : TelegramClient :=
  {| client_session := session_token; apiId := JNum 123;
     apiHash := JStr "abc"; connectionRetries := 5 |}.

(** A credentials file that holds an object without fields. *)
Definition empty_credentials : files :=
  {| credentialsFile := Content "{}";
     sessionFile := Content session_token |}.

(** A disk whose session file has surrounding white space. *)
Definition padded_files : files :=
  TelegramAuthenticator.written "123" "abc" "+10000000000"
    "  1BQANOTEuMTA4LjU2  ".

Definition saved_client : TelegramClient :=
  {| client_session := "1BQANOTEuMTA4LjU2"; apiId := JNum 123;
     apiHash := JStr "abc"; connectionRetries := 5 |}.



Definition good_run : AuthenticationFlow.World :=
  {| AuthenticationFlow.answer_apiId := "123";
     AuthenticationFlow.answer_apiHash := "abc";
     AuthenticationFlow.answer_phoneNumber := "+10000000000";
     AuthenticationFlow.construct := None;
     AuthenticationFlow.start := None;
     AuthenticationFlow.save := "1BQANOTEuMTA4LjU2";
     AuthenticationFlow.write_session := AuthenticationFlow.Written;
     AuthenticationFlow.write_credentials := AuthenticationFlow.Written;
     AuthenticationFlow.disconnect := None |}.

Definition wrong_code : AuthenticationFlow.World :=
  {| AuthenticationFlow.answer_apiId := "123";
     AuthenticationFlow.answer_apiHash := "abc";
     AuthenticationFlow.answer_phoneNumber := "+10000000000";
     AuthenticationFlow.construct := None;
     AuthenticationFlow.start := Some (ThrownError "PHONE_CODE_INVALID");
     AuthenticationFlow.save := "";
     AuthenticationFlow.write_session := AuthenticationFlow.Written;
     AuthenticationFlow.write_credentials := AuthenticationFlow.Written;
     AuthenticationFlow.disconnect := None |}.

(** The session file is written, then the disk is full: the
    credentials file is left empty. *)
Definition disk_full : AuthenticationFlow.World :=
  {| AuthenticationFlow.answer_apiId := "123";
     AuthenticationFlow.answer_apiHash := "abc";
     AuthenticationFlow.answer_phoneNumber := "+10000000000";
     AuthenticationFlow.construct := None;
     AuthenticationFlow.start := None;
     AuthenticationFlow.save := "1BQANOTEuMTA4LjU2";
     AuthenticationFlow.write_session := AuthenticationFlow.Written;
     AuthenticationFlow.write_credentials :=
       AuthenticationFlow.WriteFails
         (ThrownError "ENOSPC: no space left on device, write")
         (Content "");
     AuthenticationFlow.disconnect := None |}.

End Scenario.

(** * Properties *)

Module StrFacts.
Lemma append_assoc (a b c : string) : (a ++ b) ++ c = a ++ (b ++ c).
Proof.
  induction a as [|x a IH]; simpl.
  - reflexivity.
  - now rewrite IH.
Qed.

Lemma append_nil_r (a : string) : a ++ "" = a.
Proof.
  induction a as [|x a IH]; simpl; [reflexivity | now rewrite IH].
Qed.

Lemma prefix_append (a b : string) : prefix a (a ++ b) = true.
Proof.
  induction a as [|x a IH]; simpl.
  - now destruct b.
  - destruct (ascii_dec x x) as [_|n]; [exact IH | now elim n].
Qed.

Lemma contains_prefix (a b : string) : Str.contains a (a ++ b) = true.
Proof.
  destruct a as [|x a].
  - simpl. now destruct b.
  - pose proof (prefix_append (String x a) b) as H.
    cbn [append] in H. cbn [append Str.contains]. now rewrite H.
Qed.

Lemma contains_skip (n p h : string) :
  Str.contains n h = true -> Str.contains n (p ++ h) = true.
Proof.
  intros H. induction p as [|x p IH]; cbn [append].
  - exact H.
  - cbn [Str.contains]. rewrite IH.
    now destruct (prefix n (String x (p ++ h))).
Qed.

Lemma contains_middle (p n s : string) : Str.contains n (p ++ n ++ s) = true.
Proof. apply contains_skip, contains_prefix. Qed.


End StrFacts.

(** ** Reading back what [JSON.stringify] wrote *)

Lemma chars_escape (s rest : string) :
  JSON.chars (JSON.escape s ++ String JSON.dquote rest) = Some (s, rest).
Proof.
  induction s as [|c s IH].
  - reflexivity.
  - cbn [JSON.escape]. rewrite StrFacts.append_assoc.
    destruct c as [[] [] [] [] [] [] [] []];
      cbn; rewrite IH; reflexivity.
Qed.

Lemma parse_quote (s : string) : JSON.parse (JSON.quote s) = Some (JStr s).
Proof.
  unfold JSON.parse, JSON.quote. cbn [String.length]. simpl.
  now rewrite chars_escape.
Qed.

Lemma stringify_credentials (a h p : string) :
  JSON.stringify (TelegramAuthenticator.credentials a h p)
  = TelegramAuthenticator.credentials_text a h p.
Proof.
  unfold TelegramAuthenticator.credentials_text.
  cbn. unfold JSON.quote.
  repeat (rewrite !StrFacts.append_assoc; cbn [append]).
  reflexivity.
Qed.

Lemma parse_credentials (a h p : string) :
  JSON.parse (JSON.stringify (TelegramAuthenticator.credentials a h p))
  = Some (TelegramAuthenticator.credentials a h p).
Proof.
  rewrite stringify_credentials.
  unfold JSON.parse, TelegramAuthenticator.credentials_text, JSON.quote.
  cbn [JSON.escape JSON.escape_char].
  repeat (rewrite !StrFacts.append_assoc; cbn [append]).
  cbn [append String.length JSON.newline].
  match goal with
  | |- context [String.length ?x] => generalize (String.length x)
  end.
  intros fuel. simpl.
  rewrite chars_escape. simpl.
  rewrite chars_escape. simpl.
  rewrite chars_escape. reflexivity.
Qed.

Lemma trim_blank (s : string) : Str.all_space s = true -> Str.trim s = "".
Proof.
  unfold Str.trim. induction s as [|c s IH]; cbn.
  - reflexivity.
  - destruct (Str.is_space c); cbn; [exact IH | discriminate].
Qed.

(** ** The dispatchers, case by case *)

Section Dispatch.
Variable P : Platform.
Variable B : BotApi.Platform.

Lemma eqb_other (a b : string) : a <> b -> String.eqb a b = false.
Proof. intros H. now apply String.eqb_neq. Qed.

(** A name outside the labels falls through every comparison. *)
Ltac fall_through H :=
  repeat match goal with
    | |- context [String.eqb ?n ?l] =>
        rewrite (@eqb_other n l)
          by (intros ->; apply H; cbn; tauto)
    end.

Lemma dispatch_default (name : string) (args : option object) :
  ~ In name ChatReader.case_labels ->
  ChatReader.dispatch P name args
  = ret (ChatReader.errorContent ("Unknown tool: " ++ name)).
Proof.
  intros H. unfold ChatReader.dispatch. fall_through H. reflexivity.
Qed.

Lemma dispatch2_default (name : string) (args : option object) :
  ~ In name ChatReader2.case_labels ->
  ChatReader2.dispatch P name args
  = ret (ChatReader.errorContent ("Unknown tool: " ++ name)).
Proof.
  intros H. unfold ChatReader2.dispatch. fall_through H. reflexivity.
Qed.

Lemma bot_dispatch_default (name : string) (args : option object) :
  ~ In name BotApi.case_labels ->
  BotApi.dispatch B name args
  = ret (BotApi.errorContent ("Unknown tool: " ++ name)).
Proof.
  intros H. unfold BotApi.dispatch. fall_through H. reflexivity.
Qed.

(** C2. A tool name that is none of the case labels of the switch is
    answered, in all three servers, with an envelope whose single text
    element reads [Error: Unknown tool: ] followed by the name, so the
    returned text contains [Unknown tool: ] and the name; the state, and
    with it the record of backend calls, is left as it was, so no
    adapter operation runs. *)
Theorem unknown_tool_is_reported (name : string) (args : option object) :
  (~ In name ChatReader.case_labels ->
   forall st,
     ChatReader.callTool P name args st
     = ({| content :=
             [ {| type := "text";
                  text := "Error: Unknown tool: " ++ name |} ];
           isError := Some false |}, st)
     /\ says ("Unknown tool: " ++ name)
          (fst (ChatReader.callTool P name args st)))
  /\ (~ In name ChatReader2.case_labels ->
      forall st,
        ChatReader2.callTool P name args st
        = ({| content :=
                [ {| type := "text";
                     text := "Error: Unknown tool: " ++ name |} ];
              isError := Some false |}, st)
        /\ says ("Unknown tool: " ++ name)
             (fst (ChatReader2.callTool P name args st)))
  /\ (~ In name BotApi.case_labels ->
      forall log,
        BotApi.callTool B name args log
        = ({| content :=
                [ {| type := "text";
                     text := "Error: Unknown tool: " ++ name |} ];
              isError := None |}, log)
        /\ says ("Unknown tool: " ++ name)
             (fst (BotApi.callTool B name args log))).
Proof.
  assert (Hsays : forall flag,
             says ("Unknown tool: " ++ name)
               {| content :=
                    [ {| type := "text";
                         text := "Error: Unknown tool: " ++ name |} ];
                  isError := flag |}).
  { intros flag. eexists. split; [reflexivity|].
    change ("Error: Unknown tool: " ++ name)
      with ("Error: " ++ ("Unknown tool: " ++ name)).
    rewrite <- (StrFacts.append_nil_r ("Unknown tool: " ++ name)) at 2.
    apply StrFacts.contains_middle. }
  repeat split.
  - unfold ChatReader.callTool. now rewrite dispatch_default.
  - unfold ChatReader.callTool. rewrite dispatch_default by assumption.
    apply Hsays.
  - unfold ChatReader2.callTool. now rewrite dispatch2_default.
  - unfold ChatReader2.callTool. rewrite dispatch2_default by assumption.
    apply Hsays.
  - unfold BotApi.callTool. now rewrite bot_dispatch_default.
  - unfold BotApi.callTool. rewrite bot_dispatch_default by assumption.
    apply Hsays.
Qed.

(** C4. On both failure paths of [callTool], an unknown tool name and
    an exception caught from the adapter, the envelope is the one
    [errorContent] builds: a single text element reading [Error: ]
    followed by the extracted message, with [isError] false in the two
    chat readers and missing in the bot server, and true in none. *)
Theorem failure_envelope_is_not_flagged
  (name : string) (args : option object) :
  (forall st e st',
      ChatReader.dispatch P name args st = (Throw e, st') ->
      ChatReader.callTool P name args st
      = (ChatReader.errorContent (errorMessage e), st'))
  /\ (forall st e st',
         ChatReader2.dispatch P name args st = (Throw e, st') ->
         ChatReader2.callTool P name args st
         = (ChatReader.errorContent (errorMessage e), st'))
  /\ (forall log e log',
         BotApi.dispatch B name args log = (Throw e, log') ->
         BotApi.callTool B name args log
         = (BotApi.errorContent (errorMessage e), log'))
  /\ (~ In name ChatReader.case_labels ->
      forall st,
        ChatReader.callTool P name args st
        = (ChatReader.errorContent ("Unknown tool: " ++ name), st))
  /\ (~ In name BotApi.case_labels ->
      forall log,
        BotApi.callTool B name args log
        = (BotApi.errorContent ("Unknown tool: " ++ name), log))
  /\ (forall msg,
         failure_envelope msg (ChatReader.errorContent msg)
         /\ isError (ChatReader.errorContent msg) = Some false
         /\ failure_envelope msg (BotApi.errorContent msg)
         /\ isError (BotApi.errorContent msg) = None).
Proof.
  repeat split.
  - intros st e st' H. unfold ChatReader.callTool. now rewrite H.
  - intros st e st' H. unfold ChatReader2.callTool. now rewrite H.
  - intros log e log' H. unfold BotApi.callTool. now rewrite H.
  - intros H st. unfold ChatReader.callTool.
    now rewrite dispatch_default.
  - intros H log. unfold BotApi.callTool.
    now rewrite bot_dispatch_default.
  - now left.
  - now right.
Qed.

End Dispatch.

Ltac not_a_label := cbn; intuition discriminate.

Lemma unknown_tool_is_reported_witness :
  ChatReader.callTool Fixture.online "send_telegram_message" (Some [])
    Fixture.connected
  = ({| content :=
          [ {| type := "text";
               text := "Error: Unknown tool: send_telegram_message" |} ];
        isError := Some false |}, Fixture.connected)
  /\ says "Unknown tool: auto_connect"
       (fst (ChatReader2.callTool Fixture.online "auto_connect" None
               Fixture.connected))
  /\ BotApi.callTool Fixture.bot "get_me" None []
     = ({| content :=
             [ {| type := "text"; text := "Error: Unknown tool: get_me" |} ];
           isError := None |}, []).
Proof.
  split; [|split].
  - apply (unknown_tool_is_reported Fixture.online Fixture.bot
             "send_telegram_message" (Some [])).
    not_a_label.
  - destruct (unknown_tool_is_reported Fixture.online Fixture.bot
                "auto_connect" None) as (_ & H & _).
    apply H. not_a_label.
  - apply (unknown_tool_is_reported Fixture.online Fixture.bot "get_me" None).
    not_a_label.
Defined.

Lemma failure_envelope_is_not_flagged_witness :
  ChatReader.callTool Fixture.limited "get_me" None Fixture.connected
  = (ChatReader.errorContent "FLOOD_WAIT_30",
     snd (ChatReader.dispatch Fixture.limited "get_me" None Fixture.connected))
  /\ BotApi.callTool Fixture.bot "send_telegram_photo" (Some []) []
     = (BotApi.errorContent "ETELEGRAM: 400 Bad Request",
        [BotApi.Call_sendPhoto JUndefined JUndefined []])
  /\ BotApi.callTool Fixture.bot "get_dialogs" None []
     = (BotApi.errorContent "Unknown tool: get_dialogs", []).
Proof.
  split; [|split].
  - destruct (failure_envelope_is_not_flagged Fixture.limited Fixture.bot
                "get_me" None) as (H & _).
    exact (H Fixture.connected (ThrownError "FLOOD_WAIT_30") _ eq_refl).
  - destruct (failure_envelope_is_not_flagged Fixture.limited Fixture.bot
                "send_telegram_photo" (Some [])) as (_ & _ & H & _).
    exact (H [] (ThrownError "ETELEGRAM: 400 Bad Request") _ eq_refl).
  - destruct (failure_envelope_is_not_flagged Fixture.limited Fixture.bot
                "get_dialogs" None) as (_ & _ & _ & _ & H & _).
    apply H. not_a_label.
Defined.

(** ** The connect tools *)

Section Connect.
Variable P : Platform.

(** C10. Two argument objects that agree on every property other than
    [phoneNumber] (one of them may lack it) give the same envelope and
    the same state from [connect_telegram], in the class that
    destructures [phoneNumber] and in the one that does not. *)
Theorem connect_ignores_phoneNumber (o1 o2 : object) (st : state) :
  (forall k, k <> "phoneNumber" -> get k o1 = get k o2) ->
  ChatReader.connectTelegram P (Some o1) st
  = ChatReader.connectTelegram P (Some o2) st
  /\ ChatReader2.connectTelegram P (Some o1) st
     = ChatReader2.connectTelegram P (Some o2) st
  /\ ChatReader.callTool P "connect_telegram" (Some o1) st
     = ChatReader.callTool P "connect_telegram" (Some o2) st
  /\ ChatReader2.callTool P "connect_telegram" (Some o1) st
     = ChatReader2.callTool P "connect_telegram" (Some o2) st.
Proof.
  intros H.
  assert (Hid : get "apiId" o1 = get "apiId" o2) by (apply H; discriminate).
  assert (Hhash : get "apiHash" o1 = get "apiHash" o2)
    by (apply H; discriminate).
  assert (E1 : ChatReader.connectTelegram P (Some o1) st
               = ChatReader.connectTelegram P (Some o2) st).
  { unfold ChatReader.connectTelegram, ChatReader.destructure, bind, ret.
    now rewrite Hid, Hhash. }
  assert (E2 : ChatReader2.connectTelegram P (Some o1) st
               = ChatReader2.connectTelegram P (Some o2) st).
  { unfold ChatReader2.connectTelegram, ChatReader.destructure, bind, ret.
    now rewrite Hid, Hhash. }
  repeat split; try assumption.
  - unfold ChatReader.callTool.
    change (ChatReader.dispatch P "connect_telegram")
      with (ChatReader.connectTelegram P).
    now rewrite E1.
  - unfold ChatReader2.callTool.
    change (ChatReader2.dispatch P "connect_telegram")
      with (ChatReader2.connectTelegram P).
    now rewrite E2.
Qed.

End Connect.

Lemma connect_ignores_phoneNumber_witness :
  ChatReader2.callTool Fixture.online "connect_telegram"
    (Some Fixture.manual_args) (ChatReader.start Fixture.no_files)
  = ChatReader2.callTool Fixture.online "connect_telegram"
      (Some [ ("apiId", JStr "123"); ("apiHash", JStr "abc") ])
      (ChatReader.start Fixture.no_files).
Proof.
  apply (connect_ignores_phoneNumber Fixture.online Fixture.manual_args
           [ ("apiId", JStr "123"); ("apiHash", JStr "abc") ]
           (ChatReader.start Fixture.no_files)).
  intros k Hk. cbn.
  destruct (String.eqb_spec k "apiId") as [|_]; [reflexivity|].
  destruct (String.eqb_spec k "apiHash") as [|_]; [reflexivity|].
  destruct (String.eqb_spec k "phoneNumber") as [E|_]; [now elim Hk|].
  reflexivity.
Defined.

(** ** Listing the tools *)

Section Listing.
Variable P : Platform.

Lemma serve_answers_ListTools (rs : list request) :
  forall (st : state) (i : nat),
    nth_error rs i = Some ListTools ->
    nth_error (fst (ChatReader.serve P rs st)) i
    = Some (ToolList ChatReader.tools).
Proof.
  induction rs as [|r rs IH]; intros st i H.
  - destruct i; discriminate.
  - cbn [ChatReader.serve].
    destruct (ChatReader.handle P r st) as [a st1] eqn:Ha.
    destruct (ChatReader.serve P rs st1) as [answers st2] eqn:Hs.
    destruct i as [|i]; cbn in *.
    + injection H as ->. cbn in Ha. now injection Ha as <- _.
    + specialize (IH st1 i H). now rewrite Hs in IH.
Qed.

(** C9. The ListTools handler answers with one fixed list of tool
    definitions in every state and leaves the state alone; hence any
    two answers are equal, also as serialized text, and in a run of
    requests every ListTools request gets that same list whatever
    tool calls came before it. *)
Theorem listTools_is_stable :
  (forall st, ChatReader.listTools st = (ChatReader.tools, st))
  /\ (forall st1 st2,
         fst (ChatReader.listTools st1) = fst (ChatReader.listTools st2))
  /\ (forall st1 st2,
         JSON.stringify (JArr (map Tool_json (fst (ChatReader.listTools st1))))
         = JSON.stringify
             (JArr (map Tool_json (fst (ChatReader.listTools st2)))))
  /\ (forall rs st i,
         nth_error rs i = Some ListTools ->
         nth_error (fst (ChatReader.serve P rs st)) i
         = Some (ToolList ChatReader.tools))
  /\ (forall st, ChatReader2.listTools st = (ChatReader.tools, st))
  /\ (forall log, BotApi.listTools log = (BotApi.tools, log)).
Proof.
  repeat split; try reflexivity.
  intros rs st i H. now apply serve_answers_ListTools.
Qed.

End Listing.

Lemma listTools_is_stable_witness :
  nth_error
    (fst (ChatReader.serve Fixture.online
            [ ListTools;
              CallTool "connect_telegram" (Some Fixture.manual_args);
              CallTool "get_dialogs" (Some []);
              ListTools ]
            (ChatReader.start Fixture.no_files))) 3
  = Some (ToolList ChatReader.tools).
Proof.
  apply (listTools_is_stable Fixture.online).
  reflexivity.
Defined.

(** ** [auto_connect] without its artifacts *)

Section AutoConnect.
Variable P : Platform.

Lemma loadCredentials_absent (d : files) :
  credentialsFile d = Absent -> ChatReader.loadCredentials d = JNull.
Proof. intros H. unfold ChatReader.loadCredentials. now rewrite H. Qed.

(** C6. [auto_connect] fails with the credentials message when
    [loadCredentials] gives nothing (in particular when the file is
    absent), and with the different session message when credentials
    are there and [loadSession] gives the empty string; both times the
    client, the session and the record of backend calls are as
    before. *)
Theorem auto_connect_reports_missing_artifact
  (args : option object) (st : state) :
  (truthy (ChatReader.loadCredentials (disk st)) = false ->
   ChatReader.callTool P "auto_connect" args st
   = (ChatReader.errorContent no_credentials, st))
  /\ (credentialsFile (disk st) = Absent ->
      ChatReader.callTool P "auto_connect" args st
      = (ChatReader.errorContent no_credentials, st))
  /\ (truthy (ChatReader.loadCredentials (disk st)) = true ->
      ChatReader.loadSession (disk st) = "" ->
      ChatReader.callTool P "auto_connect" args st
      = (ChatReader.errorContent no_session, st))
  /\ Str.contains "No saved credentials found"
       (text {| type := "text"; text := "Error: " ++ no_credentials |})
     = true
  /\ Str.contains "No saved session found"
       (text {| type := "text"; text := "Error: " ++ no_session |})
     = true
  /\ ChatReader.errorContent no_credentials
     <> ChatReader.errorContent no_session.
Proof.
  assert (first : truthy (ChatReader.loadCredentials (disk st)) = false ->
                  ChatReader.callTool P "auto_connect" args st
                  = (ChatReader.errorContent no_credentials, st)).
  { intros H. unfold ChatReader.callTool.
    change (ChatReader.dispatch P "auto_connect" args)
      with (ChatReader.autoConnect P).
    unfold ChatReader.autoConnect. now rewrite H. }
  repeat split.
  - exact first.
  - intros H. apply first. now rewrite loadCredentials_absent.
  - intros Hc Hs. unfold ChatReader.callTool.
    change (ChatReader.dispatch P "auto_connect" args)
      with (ChatReader.autoConnect P).
    unfold ChatReader.autoConnect. now rewrite Hc, Hs.
  - discriminate.
Qed.

End AutoConnect.

Lemma auto_connect_reports_missing_artifact_witness :
  ChatReader.callTool Fixture.online "auto_connect" None
    (ChatReader.start Fixture.no_files)
  = (ChatReader.errorContent no_credentials,
     ChatReader.start Fixture.no_files)
  /\ ChatReader.callTool Fixture.online "auto_connect" None
       (ChatReader.start Fixture.credentials_only)
     = (ChatReader.errorContent no_session,
        ChatReader.start Fixture.credentials_only).
Proof.
  split.
  - apply (auto_connect_reports_missing_artifact Fixture.online None
             (ChatReader.start Fixture.no_files)).
    reflexivity.
  - apply (auto_connect_reports_missing_artifact Fixture.online None
             (ChatReader.start Fixture.credentials_only));
      vm_compute; reflexivity.
Defined.

(** ** The shape of conversations and messages *)

Section Shapes.
Variable P : Platform.

Lemma detail_matches_entity_all (d : Dialog) : detail_matches_entity d.
Proof.
  unfold detail_matches_entity, ChatReader.chatInfo.
  destruct (entity d); destruct (dialog_message d); cbn; tauto.
Qed.

Lemma serialize_object (ind : string) (props : object) :
  JSON.serialize ind (JObj props)
  = JSON.wrap "{" "}" ind (ind ++ JSON.gap)
      (written_members (ind ++ JSON.gap) props).
Proof.
  cbn [JSON.serialize]. f_equal.
  induction props as [|[k v] rest IH]; [reflexivity|].
  destruct v; cbn [written_members]; rewrite <- IH; reflexivity.
Qed.

Lemma written_member_in (inner k : string) (v : jsval) (props : object) :
  In (k, v) props -> v <> JUndefined ->
  In (JSON.quote k ++ ": " ++ JSON.serialize inner v)
    (written_members inner props).
Proof.
  intros Hin Hv. induction props as [|[k' v'] rest IH]; [contradiction|].
  destruct Hin as [E|Hin].
  - injection E as -> ->. destruct v; try (now left). now elim Hv.
  - specialize (IH Hin). destruct v'; cbn [written_members]; auto;
      now right.
Qed.

Lemma concat_holds (sep x : string) (parts : list string) :
  In x parts -> exists p s, String.concat sep parts = p ++ x ++ s.
Proof.
  induction parts as [|y rest IH]; [contradiction|]. intros [->|Hin].
  - exists "". destruct rest as [|z rest].
    + exists "". cbn. now rewrite StrFacts.append_nil_r.
    + exists (sep ++ String.concat sep (z :: rest)). reflexivity.
  - destruct (IH Hin) as (p & s & E). destruct rest as [|z rest];
      [contradiction|].
    exists (y ++ sep ++ p), s.
    change (String.concat sep (y :: z :: rest))
      with (y ++ sep ++ String.concat sep (z :: rest)).
    rewrite E. now rewrite !StrFacts.append_assoc.
Qed.

Lemma wrap_holds (opening closing outer inner x : string)
      (parts : list string) :
  In x parts ->
  exists p s, JSON.wrap opening closing outer inner parts = p ++ x ++ s.
Proof.
  intros Hin.
  destruct (@concat_holds ("," ++ JSON.newline ++ inner) x parts Hin)
    as (p & s & E).
  destruct parts as [|y rest]; [contradiction|].
  exists (opening ++ JSON.newline ++ inner ++ p),
    (s ++ JSON.newline ++ outer ++ closing).
  unfold JSON.wrap. rewrite E. now rewrite !StrFacts.append_assoc.
Qed.

Lemma object_opens (ind : string) (props : object) :
  exists rest, JSON.serialize ind (JObj props) = "{" ++ rest.
Proof.
  rewrite serialize_object. unfold JSON.wrap.
  destruct (written_members (ind ++ JSON.gap) props); eexists; reflexivity.
Qed.

(** A property that holds an object is written, key and opening
    brace. *)
Lemma object_member_is_written (ind k : string) (o' props : object) :
  In (k, JObj o') props ->
  writes_object k (JSON.serialize ind (JObj props)).
Proof.
  intros Hin. unfold writes_object. rewrite serialize_object.
  assert (Hm := @written_member_in (ind ++ JSON.gap) k (JObj o') props Hin).
  assert (Hv : JObj o' <> JUndefined) by discriminate.
  destruct (@wrap_holds "{" "}" ind (ind ++ JSON.gap) _ _ (Hm Hv))
    as (p & s & E).
  rewrite E. destruct (object_opens (ind ++ JSON.gap) o') as [rest Er].
  rewrite Er.
  replace (p ++ (JSON.quote k ++ ": " ++ "{" ++ rest) ++ s)
    with (p ++ (JSON.quote k ++ ": {") ++ (rest ++ s)).
  - apply StrFacts.contains_middle.
  - f_equal. rewrite !StrFacts.append_assoc. reflexivity.
Qed.

Lemma object_member_holds (ind k : string) (o' props : object) :
  In (k, JObj o') props ->
  exists p s,
    JSON.serialize ind (JObj props) = p ++ (JSON.quote k ++ ": {") ++ s.
Proof.
  intros Hin. rewrite serialize_object.
  assert (Hm := @written_member_in (ind ++ JSON.gap) k (JObj o') props Hin).
  assert (Hv : JObj o' <> JUndefined) by discriminate.
  destruct (@wrap_holds "{" "}" ind (ind ++ JSON.gap) _ _ (Hm Hv))
    as (p & s & E).
  rewrite E. destruct (object_opens (ind ++ JSON.gap) o') as [rest Er].
  rewrite Er. exists p, (rest ++ s).
  f_equal. rewrite !StrFacts.append_assoc. reflexivity.
Qed.

Lemma serialize_array (ind : string) (items : list jsval) :
  JSON.serialize ind (JArr items)
  = JSON.wrap "[" "]" ind (ind ++ JSON.gap)
      (map (JSON.serialize (ind ++ JSON.gap)) items).
Proof.
  reflexivity.
Qed.

(** What is written for an element of an array is part of what is
    written for the array. *)
Lemma array_element_holds (ind needle : string) (v : jsval)
      (items : list jsval) :
  In v items ->
  (exists p s, JSON.serialize (ind ++ JSON.gap) v = p ++ needle ++ s) ->
  Str.contains needle (JSON.serialize ind (JArr items)) = true.
Proof.
  intros Hin (p' & s' & E'). rewrite serialize_array.
  destruct (@wrap_holds "[" "]" ind (ind ++ JSON.gap)
              (JSON.serialize (ind ++ JSON.gap) v)
              (map (JSON.serialize (ind ++ JSON.gap)) items)
              (in_map _ _ _ Hin)) as (p & s & E).
  rewrite E, E'.
  replace (p ++ (p' ++ needle ++ s') ++ s)
    with ((p ++ p') ++ needle ++ (s' ++ s))
    by now rewrite !StrFacts.append_assoc.
  apply StrFacts.contains_middle.
Qed.

Lemma detail_member (d : Dialog) (k : string) :
  detail_key d = Some k ->
  exists o', In (k, JObj o') (ChatReader.chatInfo d).
Proof.
  unfold detail_key, ChatReader.chatInfo.
  destruct (entity d) as [u|c|c|]; intros [= <-];
    destruct (dialog_message d);
    unfold ChatReader.user_info, ChatReader.chat_info,
      ChatReader.channel_info; cbn;
    eexists; repeat first [left; reflexivity | right].
Qed.

Lemma detail_is_written_all (d : Dialog) : detail_is_written d.
Proof.
  intros ind text. unfold text, ChatReader.chatInfo.
  destruct (entity d) as [u|c|c|]; [| | |exact I];
    destruct (dialog_message d);
    (eapply object_member_is_written;
     unfold ChatReader.user_info, ChatReader.chat_info,
       ChatReader.channel_info; cbn;
     repeat first [left; reflexivity | right]).
Qed.

Lemma getDialogs_returns (st : state) (c : TelegramClient) (o : object)
      (dialogs : list Dialog) :
  client st = Some c ->
  client_getDialogs P (calls st) c (with_default (JNum 100) (get "limit" o))
  = Ok dialogs ->
  fst (ChatReader.callTool P "get_dialogs" (Some o) st)
  = text_envelope
      (JSON.stringify
         (JArr (map (fun d => JObj (ChatReader.chatInfo d)) dialogs)))
      (Some false).
Proof.
  intros Hc Hr. unfold ChatReader.callTool.
  change (ChatReader.dispatch P "get_dialogs" (Some o))
    with (ChatReader.getDialogs P (Some o)).
  unfold ChatReader.getDialogs. rewrite Hc.
  unfold bind, ChatReader.destructure, ret, ChatReader.backend.
  now rewrite Hr.
Qed.

(** C7. When the backend returns [dialogs], [get_dialogs] answers one
    text element flagged [isError: false] holding the JSON text of an
    array with one object per dialog, in order.  The object of a user
    entity has the [user] property, an object of the four user fields,
    and neither [chat] nor [channel]; that of a channel entity has
    [channel], an object of its three fields, and neither [user] nor
    [chat]; that of a basic group has [chat] only.  The detail object
    is written under its key, so the returned text holds, for every
    dialog of a user, the key [user] with an object behind it, and
    likewise [chat] and [channel]. *)
Theorem get_dialogs_detail_matches_kind
  (st : state) (c : TelegramClient) (o : object) (dialogs : list Dialog) :
  client st = Some c ->
  client_getDialogs P (calls st) c (with_default (JNum 100) (get "limit" o))
  = Ok dialogs ->
  let result := map (fun d => JObj (ChatReader.chatInfo d)) dialogs in
  fst (ChatReader.callTool P "get_dialogs" (Some o) st)
  = {| content :=
         [ {| type := "text"; text := JSON.stringify (JArr result) |} ];
       isError := Some false |}
  /\ length result = length dialogs
  /\ (forall i d,
         nth_error dialogs i = Some d ->
         nth_error result i = Some (JObj (ChatReader.chatInfo d))
         /\ detail_matches_entity d
         /\ detail_is_written d)
  /\ (forall d k,
         In d dialogs -> detail_key d = Some k ->
         says (JSON.quote k ++ ": {")
           (fst (ChatReader.callTool P "get_dialogs" (Some o) st))).
Proof.
  intros Hc Hr result.
  assert (Hanswer := @getDialogs_returns st c o dialogs Hc Hr).
  fold result in Hanswer.
  split; [exact Hanswer|]. split; [apply length_map|]. split.
  - intros i d H. repeat split.
    + unfold result.
      exact (map_nth_error (fun d => JObj (ChatReader.chatInfo d)) i
               dialogs H).
    + apply detail_matches_entity_all.
    + apply detail_is_written_all.
  - intros d k Hin Hk. rewrite Hanswer. eexists. split; [reflexivity|].
    unfold JSON.stringify.
    apply array_element_holds with (v := JObj (ChatReader.chatInfo d)).
    + unfold result. now apply (in_map (fun d => JObj (ChatReader.chatInfo d))).
    + destruct (detail_member d Hk) as [o' Ho'].
      exact (@object_member_holds _ _ _ _ Ho').
Qed.

Lemma getMessages_returns (st : state) (c : TelegramClient) (o : object)
      (e : Entity) (messages : list Message) :
  client st = Some c ->
  client_getEntity P (calls st) c (get "entityId" o) = Ok e ->
  client_getMessages P (calls st ++ [Call_getEntity c (get "entityId" o)])
    c e (with_default (JNum 50) (get "limit" o)) (get "offsetId" o)
  = Ok messages ->
  fst (ChatReader.callTool P "get_messages" (Some o) st)
  = text_envelope
      (JSON.stringify
         (JArr (map (fun m => JObj (ChatReader.messageInfo m)) messages)))
      None.
Proof.
  intros Hc He Hm. unfold ChatReader.callTool.
  change (ChatReader.dispatch P "get_messages" (Some o))
    with (ChatReader.getMessages P (Some o)).
  unfold ChatReader.getMessages. rewrite Hc.
  unfold bind, try_catch, ChatReader.destructure, ret, ChatReader.backend.
  cbn. rewrite He. cbn. now rewrite Hm.
Qed.

(** C5, as amended. In the object [get_messages] builds for a
    message, [fromId] is the decimal string of the user id when the
    sender reference is a [PeerUser] (so 555 gives the string 555);
    for every other reference, and for none, it is [undefined], and
    the JSON text is that of the object without a [fromId]
    property. *)
Theorem fromId_is_string_or_undefined (msg : Message) :
  (forall id,
      fromId msg = Some (PeerUser id) ->
      get "fromId" (ChatReader.messageInfo msg) = JStr (Z_toString id))
  /\ ((forall id, fromId msg <> Some (PeerUser id)) ->
      get "fromId" (ChatReader.messageInfo msg) = JUndefined
      /\ forall ind,
          JSON.serialize ind (JObj (ChatReader.messageInfo msg))
          = JSON.serialize ind
              (JObj (delete "fromId" (ChatReader.messageInfo msg))))
  /\ Z_toString 555 = "555".
Proof.
  repeat split.
  - intros id H. unfold ChatReader.messageInfo. cbn. now rewrite H.
  - unfold ChatReader.messageInfo. cbn.
    destruct (fromId msg) as [[id| |]|]; try reflexivity.
    now elim (H id).
  - intros ind. unfold ChatReader.messageInfo.
    destruct (fromId msg) as [[id| |]|]; try (now elim (H id));
      destruct (message msg); reflexivity.
Qed.

End Shapes.

Lemma get_dialogs_detail_matches_kind_witness :
  let answer :=
    fst (ChatReader.callTool Fixture.online "get_dialogs" (Some [])
           Fixture.connected) in
  answer
  = {| content :=
         [ {| type := "text";
              text :=
                JSON.stringify
                  (JArr (map (fun d => JObj (ChatReader.chatInfo d))
                           Fixture.two_dialogs)) |} ];
       isError := Some false |}
  /\ length (map (fun d => JObj (ChatReader.chatInfo d)) Fixture.two_dialogs)
     = 2
  /\ map (fun item =>
            (Str.contains (JSON.quote "user" ++ ": {") (text item),
             Str.contains (JSON.quote "channel" ++ ": {") (text item),
             Str.contains (JSON.quote "chat") (text item)))
       (content answer)
     = [ (true, true, false) ].
Proof.
  destruct (@get_dialogs_detail_matches_kind Fixture.online Fixture.connected
              Fixture.manual_client [] Fixture.two_dialogs
              eq_refl eq_refl) as (H1 & H2 & _).
  cbv zeta. split; [exact H1 | split; [exact H2 | vm_compute; reflexivity]].
Defined.

Lemma fromId_is_string_or_undefined_witness :
  get "fromId" (ChatReader.messageInfo Fixture.from_alice) = JStr "555"
  /\ get "fromId" (ChatReader.messageInfo Fixture.channel_post) = JUndefined.
Proof.
  split.
  - destruct (fromId_is_string_or_undefined Fixture.from_alice) as (H & _).
    exact (H 555%Z eq_refl).
  - destruct (fromId_is_string_or_undefined Fixture.channel_post)
      as (_ & H & _).
    apply H. intros id. discriminate.
Defined.

(** C5 as stated fails: the post of a channel has a sender reference
    that is no [PeerUser], and its [fromId] is [undefined], not [null];
    the text [get_messages] returns for it has no [fromId] at all. *)
Lemma fromId_of_channel_post_is_not_null :
  (forall id, fromId Fixture.channel_post <> Some (PeerUser id))
  /\ get "fromId" (ChatReader.messageInfo Fixture.channel_post) <> JNull
  /\ Str.contains "fromId"
       (JSON.stringify (JObj (ChatReader.messageInfo Fixture.channel_post)))
     = false
  /\ get "sender" (ChatReader.messageInfo
                     {| msg_id := 12; message := None; date := 0;
                        fromId := None; sender := None; replyTo := None;
                        views := None; forwards := None |}) = JNull.
Proof.
  repeat split; try discriminate. 
Qed.

(** ** The session store *)

Lemma trimEnd_clean (s : string) :
  Str.last_is_space s = false -> Str.trimEnd s = s.
Proof.
  induction s as [|c s IH]; intros H.
  - reflexivity.
  - cbn [Str.trimEnd]. destruct s as [|c' s].
    + cbn in *. now rewrite H.
    + rewrite IH by exact H. reflexivity.
Qed.

Lemma trim_clean (s : string) :
  Str.first_is_space s = false -> Str.last_is_space s = false ->
  Str.trim s = s.
Proof.
  intros Hf Hl. unfold Str.trim.
  destruct s as [|c s]; [reflexivity|].
  cbn in Hf. cbn [Str.trimStart]. rewrite Hf. now apply trimEnd_clean.
Qed.

(** C8. From the files the authentication script writes (the
    credentials as [JSON.stringify(credentials, null, 2)], the token as
    plain text), [loadCredentials] gives back the credentials object and
    [loadSession] the token trimmed; the script writes them whenever the
    token is not empty.  Without a readable session file [loadSession]
    gives the empty string, and without a readable, parseable
    credentials file [loadCredentials] gives [null]; neither can
    throw, both being total functions of the disk. *)
Theorem session_store_round_trip (a h p token : string) (d : files) :
  (ChatReader.loadCredentials (TelegramAuthenticator.written a h p token)
   = TelegramAuthenticator.credentials a h p
   /\ ChatReader.loadSession (TelegramAuthenticator.written a h p token)
      = Str.trim token)
  /\ (token <> "" ->
      ChatReader.loadCredentials
        (TelegramAuthenticator.authenticate_save a h p token d)
      = TelegramAuthenticator.credentials a h p
      /\ ChatReader.loadSession
           (TelegramAuthenticator.authenticate_save a h p token d)
         = Str.trim token)
  /\ (sessionFile d = Absent \/ sessionFile d = Unreadable ->
      ChatReader.loadSession d = "")
  /\ (credentialsFile d = Absent \/ credentialsFile d = Unreadable
      \/ (exists data,
             credentialsFile d = Content data /\ JSON.parse data = None) ->
      ChatReader.loadCredentials d = JNull).
Proof.
  assert (direct :
            ChatReader.loadCredentials
              (TelegramAuthenticator.written a h p token)
            = TelegramAuthenticator.credentials a h p
            /\ ChatReader.loadSession
                 (TelegramAuthenticator.written a h p token)
               = Str.trim token).
  { split; [|reflexivity].
    unfold ChatReader.loadCredentials, TelegramAuthenticator.written.
    cbn [credentialsFile]. now rewrite parse_credentials. }
  split; [exact direct|]. split; [|split].
  - intros Hne. unfold TelegramAuthenticator.authenticate_save.
    cbn [truthy]. destruct (String.eqb_spec token "") as [E|_].
    + now elim Hne.
    + exact direct.
  - unfold ChatReader.loadSession. intros [H|H]; now rewrite H.
  - unfold ChatReader.loadCredentials.
    intros [H|[H|(data & H & Hp)]]; rewrite H; [reflexivity..|].
    now rewrite Hp.
Qed.

Lemma session_store_round_trip_witness :
  ChatReader.loadCredentials Fixture.saved_files
  = TelegramAuthenticator.credentials "123" "abc" "+10000000000"
  /\ ChatReader.loadSession Fixture.saved_files = "1BQANOTEuMTA4LjU2"
  /\ ChatReader.loadSession Fixture.no_files = ""
  /\ ChatReader.loadCredentials
       {| credentialsFile := Content "{apiId: 123}";
          sessionFile := Absent |} = JNull.
Proof.
  destruct (session_store_round_trip "123" "abc" "+10000000000"
              "1BQANOTEuMTA4LjU2" Fixture.no_files) as (_ & H & _).
  destruct H as [Hc Hs]; [discriminate|].
  split; [exact Hc | split; [exact Hs | split]].
  - apply (session_store_round_trip "" "" "" "" Fixture.no_files).
    left. reflexivity.
  - apply (session_store_round_trip "" "" "" ""
             {| credentialsFile := Content "{apiId: 123}";
                sessionFile := Absent |}).
    right. right. exists "{apiId: 123}". split; reflexivity.
Defined.

(** ** The guard on the client and the wrapping of backend errors *)

Section Guards.
Variable P : Platform.


(** [connectTelegram] assigns [this.client] before it awaits
    [connect], and its [catch] clause leaves the assignment in
    place. *)
Lemma failed_connect_keeps_client (o : object) (st : state) (e : thrown) :
  let sessionString := ChatReader.loadSession (disk st) in
  let c := {| client_session := sessionString;
              apiId := parseInt P (get "apiId" o);
              apiHash := get "apiHash" o;
              connectionRetries := 5 |} in
  new_StringSession P sessionString = None ->
  new_TelegramClient P sessionString (parseInt P (get "apiId" o))
    (get "apiHash" o) = None ->
  connect P (calls st) c = Throw e ->
  client (snd (ChatReader.callTool P "connect_telegram" (Some o) st))
  = Some c.
Proof.
  intros sessionString c Hs Hn Hf. unfold ChatReader.callTool.
  change (ChatReader.dispatch P "connect_telegram" (Some o))
    with (ChatReader.connectTelegram P (Some o)).
  unfold ChatReader.connectTelegram, ChatReader.destructure, bind, ret,
    ChatReader.assign_session, ChatReader.assign_client, try_catch,
    ChatReader.backend, ChatReader.set_session, ChatReader.set_client.
  fold sessionString. rewrite Hs. cbn. rewrite Hn. cbn.
  fold c. now rewrite Hf.
Qed.

(** [getDialogs] has no [try] around its backend call: what the
    backend throws is what the dispatcher catches. *)
Lemma getDialogs_error_passes (o : object) (st : state)
      (c : TelegramClient) (e : thrown) :
  client st = Some c ->
  client_getDialogs P (calls st) c (with_default (JNum 100) (get "limit" o))
  = Throw e ->
  fst (ChatReader.dispatch P "get_dialogs" (Some o) st) = Throw e.
Proof.
  intros Hc Hr.
  change (ChatReader.dispatch P "get_dialogs" (Some o))
    with (ChatReader.getDialogs P (Some o)).
  unfold ChatReader.getDialogs. rewrite Hc.
  unfold bind, ChatReader.destructure, ret, ChatReader.backend.
  now rewrite Hr.
Qed.

Lemma getMe_error_passes (args : option object) (st : state)
      (c : TelegramClient) (e : thrown) :
  client st = Some c ->
  client_getMe P (calls st) c = Throw e ->
  fst (ChatReader.dispatch P "get_me" args st) = Throw e.
Proof.
  intros Hc Hr.
  change (ChatReader.dispatch P "get_me" args) with (ChatReader.getMe P).
  unfold ChatReader.getMe. rewrite Hc.
  unfold bind, ret, ChatReader.backend. now rewrite Hr.
Qed.

(** With a client in place [get_dialogs] always reaches the backend,
    whether or not that client ever connected. *)
Lemma get_dialogs_with_client_calls_backend (o : object) (st : state)
      (c : TelegramClient) :
  client st = Some c ->
  calls (snd (ChatReader.callTool P "get_dialogs" (Some o) st))
  = (calls st
       ++ [ Call_getDialogs c (with_default (JNum 100) (get "limit" o)) ])%list.
Proof.
  intros Hc. unfold ChatReader.callTool.
  change (ChatReader.dispatch P "get_dialogs" (Some o))
    with (ChatReader.getDialogs P (Some o)).
  unfold ChatReader.getDialogs. rewrite Hc.
  unfold bind, ChatReader.destructure, ret, ChatReader.backend.
  now destruct (client_getDialogs P (calls st) c
                  (with_default (JNum 100) (get "limit" o))).
Qed.

(** [searchGlobal] wraps: an [Error] from the backend comes out with
    the prefix of the operation. *)
Lemma searchGlobal_error_wrapped (o : object) (st : state)
      (c : TelegramClient) (m : string) :
  client st = Some c ->
  client_invoke_SearchGlobal P (calls st) c (get "query" o)
    (with_default (JNum 50) (get "limit" o)) = Throw (ThrownError m) ->
  fst (ChatReader.dispatch P "search_global" (Some o) st)
  = Throw (ThrownError ("Search failed: " ++ m)).
Proof.
  intros Hc Hr.
  change (ChatReader.dispatch P "search_global" (Some o))
    with (ChatReader.searchGlobal P (Some o)).
  unfold ChatReader.searchGlobal. rewrite Hc.
  unfold bind, try_catch, ChatReader.destructure, ret, ChatReader.backend.
  cbn. now rewrite Hr.
Qed.

(** So does [getMessages], for a failure of [getEntity]. *)
Lemma getMessages_error_wrapped (o : object) (st : state)
      (c : TelegramClient) (m : string) :
  client st = Some c ->
  client_getEntity P (calls st) c (get "entityId" o)
  = Throw (ThrownError m) ->
  fst (ChatReader.dispatch P "get_messages" (Some o) st)
  = Throw (ThrownError ("Could not get messages: " ++ m)).
Proof.
  intros Hc Hr.
  change (ChatReader.dispatch P "get_messages" (Some o))
    with (ChatReader.getMessages P (Some o)).
  unfold ChatReader.getMessages. rewrite Hc.
  unfold bind, try_catch, ChatReader.destructure, ret, ChatReader.backend.
  cbn. now rewrite Hr.
Qed.

End Guards.

(** C1, at the input where the code departs from it. A
    [connect_telegram] whose connection attempt is refused answers
    [Connection failed] and leaves [this.client] set; the [get_dialogs]
    that follows passes the guard, calls the backend, and answers with
    the backend's error instead of [Not connected]. *)
Theorem get_dialogs_after_failed_connect_reaches_backend :
  let st0 := ChatReader.start Fixture.no_files in
  let r1 := ChatReader.callTool Fixture.offline "connect_telegram"
              (Some Fixture.manual_args) st0 in
  let r2 := ChatReader.callTool Fixture.offline "get_dialogs" (Some [])
              (snd r1) in
  fst r1
  = text_envelope
      "Connection failed. Please ensure you have run the authentication script first to save your session."
      None
  /\ client (snd r1) = Some Fixture.manual_client
  /\ fst r2
     = ChatReader.errorContent "Cannot send requests while disconnected"
  /\ map (fun item => Str.contains "Not connected" (text item))
       (content (fst r2)) = [false]
  /\ calls (snd r2)
     = [ Call_connect Fixture.manual_client;
         Call_getDialogs Fixture.manual_client (JNum 100) ].
Proof.
  cbv zeta. repeat split.
Qed.

(** C3, at the input where the code departs from it. With a client in
    place and a backend that answers [FLOOD_WAIT_30], [get_dialogs] and
    [get_me] hand that very exception to the dispatcher, whose envelope
    shows the backend's message with no operation prefix;
    [get_messages] and [search_global] are the operations that wrap. *)
Theorem get_dialogs_and_get_me_pass_backend_error :
  fst (ChatReader.dispatch Fixture.limited "get_dialogs" (Some [])
         Fixture.connected)
  = Throw (ThrownError "FLOOD_WAIT_30")
  /\ fst (ChatReader.callTool Fixture.limited "get_dialogs" (Some [])
            Fixture.connected)
     = ChatReader.errorContent "FLOOD_WAIT_30"
  /\ fst (ChatReader.dispatch Fixture.limited "get_me" None Fixture.connected)
     = Throw (ThrownError "FLOOD_WAIT_30")
  /\ fst (ChatReader.callTool Fixture.limited "get_me" None Fixture.connected)
     = ChatReader.errorContent "FLOOD_WAIT_30"
  /\ fst (ChatReader.dispatch Fixture.limited "get_messages"
            (Some [ ("entityId", JStr "me") ]) Fixture.connected)
     = Throw (ThrownError "Could not get messages: FLOOD_WAIT_30").
Proof.
  repeat split.
Qed.

(** ** What a tool call may change *)

Section Frame.
Variable P : Platform.
Variable R : state -> state -> Prop.
Hypothesis R_refl : forall st, R st st.
Hypothesis R_trans : forall a b c, R a b -> R b c -> R a c.
Hypothesis R_call :
  forall st c,
    R st {| client := client st; session := session st; disk := disk st;
            calls := calls st ++ [c] |}.
Hypothesis R_session :
  forall st s,
    R st {| client := client st; session := s; disk := disk st;
            calls := calls st |}.
Hypothesis R_client :
  forall st c,
    R st {| client := Some c; session := session st; disk := disk st;
            calls := calls st |}.

Lemma respects_ret {A} (a : A) : respects R (ret a).
Proof. intros st. apply R_refl. Qed.

Lemma respects_throw {A} (e : thrown) : respects R (@throw state A e).
Proof. intros st. apply R_refl. Qed.

Lemma respects_bind {A B} (m : M state A) (k : A -> M state B) :
  respects R m -> (forall a, respects R (k a)) -> respects R (bind m k).
Proof.
  intros Hm Hk st. unfold bind. specialize (Hm st).
  destruct (m st) as [[a|e] st1]; cbn in *.
  - apply R_trans with st1; [exact Hm | apply Hk].
  - exact Hm.
Qed.

Lemma respects_try_catch {A} (m : M state A) (h : thrown -> M state A) :
  respects R m -> (forall e, respects R (h e)) -> respects R (try_catch m h).
Proof.
  intros Hm Hh st. unfold try_catch. specialize (Hm st).
  destruct (m st) as [[a|e] st1]; cbn in *.
  - exact Hm.
  - apply R_trans with st1; [exact Hm | apply Hh].
Qed.

Lemma respects_backend {A} (c : call) (reply : list call -> result A) :
  respects R (ChatReader.backend c reply).
Proof. intros st. apply R_call. Qed.

Lemma respects_destructure (k : string) (args : option object) :
  respects R (ChatReader.destructure P k args).
Proof. destruct args; [apply respects_ret | apply respects_throw]. Qed.

Lemma respects_rethrow {A} (prefix : string) (e : thrown) :
  respects R (@ChatReader.rethrow P A prefix e).
Proof. destruct e; apply respects_throw. Qed.

Ltac frame :=
  repeat first
    [ apply respects_ret
    | apply respects_throw
    | apply respects_backend
    | apply respects_destructure
    | apply respects_rethrow
    | apply respects_bind; [|intros ?]
    | apply respects_try_catch; [|intros ?] ].

Lemma respects_at {A} (m : M state A) (st : state) :
  respects R m -> R st (snd (m st)).
Proof. intros H. apply H. Qed.

(** The guard on [this.client], then the rest of the method. *)
Ltac guarded method :=
  intros st; unfold method;
  destruct (client st); [|apply R_refl];
  apply respects_at; frame.

Lemma respects_getDialogs (args : option object) :
  respects R (ChatReader.getDialogs P args).
Proof. guarded ChatReader.getDialogs. Qed.

Lemma respects_getMessages (args : option object) :
  respects R (ChatReader.getMessages P args).
Proof. guarded ChatReader.getMessages. Qed.

Lemma respects_searchGlobal (args : option object) :
  respects R (ChatReader.searchGlobal P args).
Proof. guarded ChatReader.searchGlobal. Qed.

Lemma respects_getMe : respects R (ChatReader.getMe P).
Proof. guarded ChatReader.getMe. Qed.

Lemma respects_assign_session (s : string) :
  respects R (ChatReader.assign_session P s).
Proof.
  unfold ChatReader.assign_session.
  destruct (new_StringSession P s); [apply respects_throw|].
  intros st. apply R_session.
Qed.

Lemma respects_assign_client (id hash : jsval) :
  respects R (ChatReader.assign_client P id hash).
Proof.
  intros st. unfold ChatReader.assign_client.
  destruct (new_TelegramClient P (session st) id hash); [apply R_refl|].
  apply R_client.
Qed.

Lemma respects_autoConnect : respects R (ChatReader.autoConnect P).
Proof.
  intros st. unfold ChatReader.autoConnect.
  destruct (negb (truthy (ChatReader.loadCredentials (disk st))));
    [apply R_refl|].
  destruct (negb (truthy (JStr (ChatReader.loadSession (disk st)))));
    [apply R_refl|].
  apply respects_at.
  apply respects_bind; [apply respects_assign_session | intros _].
  apply respects_bind; [apply respects_assign_client | intros c].
  frame.
Qed.

Lemma respects_connectTelegram (args : option object) :
  respects R (ChatReader.connectTelegram P args).
Proof.
  unfold ChatReader.connectTelegram.
  apply respects_bind; [apply respects_destructure | intros o].
  intros st. apply respects_at.
  apply respects_bind; [apply respects_assign_session | intros _].
  apply respects_bind; [apply respects_assign_client | intros c].
  frame.
Qed.

Lemma respects_connectTelegram2 (args : option object) :
  respects R (ChatReader2.connectTelegram P args).
Proof.
  unfold ChatReader2.connectTelegram.
  apply respects_bind; [apply respects_destructure | intros o].
  intros st. apply respects_at.
  apply respects_bind; [apply respects_assign_session | intros _].
  apply respects_bind; [apply respects_assign_client | intros c].
  frame.
Qed.

Lemma respects_dispatch (name : string) (args : option object) :
  respects R (ChatReader.dispatch P name args).
Proof.
  unfold ChatReader.dispatch.
  repeat match goal with
         | |- context [if ?b then _ else _] => destruct b
         end;
    auto using respects_autoConnect, respects_connectTelegram,
      respects_getDialogs, respects_getMessages, respects_searchGlobal,
      respects_getMe, respects_ret.
Qed.

Lemma respects_dispatch2 (name : string) (args : option object) :
  respects R (ChatReader2.dispatch P name args).
Proof.
  unfold ChatReader2.dispatch.
  repeat match goal with
         | |- context [if ?b then _ else _] => destruct b
         end;
    auto using respects_connectTelegram2,
      respects_getDialogs, respects_getMessages, respects_searchGlobal,
      respects_getMe, respects_ret.
Qed.

Lemma callTool_related (name : string) (args : option object) (st : state) :
  R st (snd (ChatReader.callTool P name args st)).
Proof.
  unfold ChatReader.callTool.
  pose proof (respects_dispatch name args st) as H.
  destruct (ChatReader.dispatch P name args st) as [[env|e] st'];
    exact H.
Qed.

Lemma callTool2_related (name : string) (args : option object) (st : state) :
  R st (snd (ChatReader2.callTool P name args st)).
Proof.
  unfold ChatReader2.callTool.
  pose proof (respects_dispatch2 name args st) as H.
  destruct (ChatReader2.dispatch P name args st) as [[env|e] st'];
    exact H.
Qed.

Lemma serve_related (rs : list request) :
  forall st, R st (snd (ChatReader.serve P rs st)).
Proof.
  induction rs as [|r rs IH]; intros st; cbn [ChatReader.serve].
  - apply R_refl.
  - destruct (ChatReader.handle P r st) as [a st1] eqn:Ha.
    specialize (IH st1).
    destruct (ChatReader.serve P rs st1) as [answers st2]. cbn in *.
    apply R_trans with st1; [|exact IH].
    destruct r as [|name args]; cbn in Ha.
    + injection Ha as _ <-. apply R_refl.
    + pose proof (callTool_related name args st) as H.
      destruct (ChatReader.callTool P name args st) as [env st'].
      injection Ha as _ <-. exact H.
Qed.

End Frame.

Lemma app_nil_end (A : Type) (l : list A) : l = (l ++ [])%list.
Proof. now rewrite app_nil_r. Qed.

Lemma calls_extended_refl (st : state) : calls_extended st st.
Proof. exists []. apply app_nil_end. Qed.

Lemma calls_extended_trans (a b c : state) :
  calls_extended a b -> calls_extended b c -> calls_extended a c.
Proof.
  intros [n1 H1] [n2 H2]. exists (n1 ++ n2)%list.
  now rewrite H2, H1, app_assoc.
Qed.

Lemma calls_extended_call (st : state) (c : call) :
  calls_extended st
    {| client := client st; session := session st; disk := disk st;
       calls := calls st ++ [c] |}.
Proof. now exists [c]. Qed.

Lemma calls_extended_session (st : state) (s : string) :
  calls_extended st
    {| client := client st; session := s; disk := disk st;
       calls := calls st |}.
Proof. exists []. apply app_nil_end. Qed.

Lemma calls_extended_client (st : state) (c : TelegramClient) :
  calls_extended st
    {| client := Some c; session := session st; disk := disk st;
       calls := calls st |}.
Proof. exists []. apply app_nil_end. Qed.

Lemma only_calls_differ_refl (st : state) : only_calls_differ st st.
Proof. repeat split. apply calls_extended_refl. Qed.

Lemma only_calls_differ_trans (a b c : state) :
  only_calls_differ a b -> only_calls_differ b c -> only_calls_differ a c.
Proof.
  intros (H1 & H2 & H3 & H4) (K1 & K2 & K3 & K4). repeat split.
  - now rewrite K1.
  - now rewrite K2.
  - now rewrite K3.
  - now apply calls_extended_trans with b.
Qed.

Lemma only_calls_differ_call (st : state) (c : call) :
  only_calls_differ st
    {| client := client st; session := session st; disk := disk st;
       calls := calls st ++ [c] |}.
Proof. repeat split. now exists [c]. Qed.

Section Invariants.
Variable P : Platform.

(** X1. No tool call of either chat reader changes the files: the disk
    after a call, and after any run of requests, is the disk before. *)
Theorem tool_calls_never_write_the_disk
  (name : string) (args : option object) (rs : list request) (st : state) :
  disk (snd (ChatReader.callTool P name args st)) = disk st
  /\ disk (snd (ChatReader2.callTool P name args st)) = disk st
  /\ disk (snd (ChatReader.serve P rs st)) = disk st.
Proof.
  repeat split.
  - apply (callTool_related P same_disk); unfold same_disk;
      cbn; congruence.
  - apply (callTool2_related P same_disk); unfold same_disk;
      cbn; congruence.
  - apply (serve_related P same_disk); unfold same_disk;
      cbn; congruence.
Qed.

(** The record of backend calls is append-only: after a tool call,
    and after any run of requests, it is the record before followed by
    the new calls. *)
Theorem backend_record_only_grows
  (name : string) (args : option object) (rs : list request) (st : state) :
  (exists new,
      calls (snd (ChatReader.callTool P name args st))
      = (calls st ++ new)%list)
  /\ (exists new,
         calls (snd (ChatReader2.callTool P name args st))
         = (calls st ++ new)%list)
  /\ (exists new,
         calls (snd (ChatReader.serve P rs st)) = (calls st ++ new)%list).
Proof.
  repeat split.
  - exact (callTool_related P calls_extended calls_extended_refl
             calls_extended_trans calls_extended_call
             calls_extended_session calls_extended_client name args st).
  - exact (callTool2_related P calls_extended calls_extended_refl
             calls_extended_trans calls_extended_call
             calls_extended_session calls_extended_client name args st).
  - exact (serve_related P calls_extended calls_extended_refl
             calls_extended_trans calls_extended_call
             calls_extended_session calls_extended_client rs st).
Qed.

(** X2. Once [this.client] holds a client it is never null again:
    whatever requests follow, and however they end, a client is still
    there. *)
Theorem client_is_never_cleared
  (name : string) (args : option object) (rs : list request) (st : state) :
  client st <> None ->
  client (snd (ChatReader.callTool P name args st)) <> None
  /\ client (snd (ChatReader2.callTool P name args st)) <> None
  /\ client (snd (ChatReader.serve P rs st)) <> None.
Proof.
  intros H. repeat split.
  - revert H. apply (callTool_related P client_kept);
      unfold client_kept; cbn; auto; discriminate.
  - revert H. apply (callTool2_related P client_kept);
      unfold client_kept; cbn; auto; discriminate.
  - revert H. apply (serve_related P client_kept);
      unfold client_kept; cbn; auto; discriminate.
Qed.

(** X3. The four data tools change nothing but the record of backend
    calls: the client, the session and the disk are as before, in both
    chat readers and for every argument. *)
Theorem data_tools_change_only_the_backend_record
  (name : string) (args : option object) (st : state) :
  In name ChatReader.data_tools ->
  only_calls_differ st (snd (ChatReader.callTool P name args st))
  /\ only_calls_differ st (snd (ChatReader2.callTool P name args st)).
Proof.
  intros Hin.
  assert (H : respects only_calls_differ (ChatReader.dispatch P name args)
              /\ respects only_calls_differ
                   (ChatReader2.dispatch P name args)).
  { pose proof only_calls_differ_refl as Hr.
    pose proof only_calls_differ_trans as Ht.
    pose proof only_calls_differ_call as Hc.
    cbn in Hin. destruct Hin as [<-|[<-|[<-|[<-|[]]]]]; split.
    - exact (respects_getDialogs P only_calls_differ Hr Ht Hc args).
    - exact (respects_getDialogs P only_calls_differ Hr Ht Hc args).
    - exact (respects_getMessages P only_calls_differ Hr Ht Hc args).
    - exact (respects_getMessages P only_calls_differ Hr Ht Hc args).
    - exact (respects_searchGlobal P only_calls_differ Hr Ht Hc args).
    - exact (respects_searchGlobal P only_calls_differ Hr Ht Hc args).
    - exact (respects_getMe P only_calls_differ Hr Ht Hc).
    - exact (respects_getMe P only_calls_differ Hr Ht Hc). }
  destruct H as [H1 H2]. split.
  - unfold ChatReader.callTool. specialize (H1 st).
    now destruct (ChatReader.dispatch P name args st) as [[env|e] st'].
  - unfold ChatReader2.callTool. specialize (H2 st).
    now destruct (ChatReader2.dispatch P name args st) as [[env|e] st'].
Qed.

End Invariants.

Lemma client_is_never_cleared_witness :
  client
    (snd (ChatReader.serve Fixture.offline
            [ CallTool "auto_connect" None;
              CallTool "connect_telegram" None;
              CallTool "get_me" None;
              CallTool "no_such_tool" None ]
            Fixture.connected)) <> None.
Proof.
  apply (client_is_never_cleared Fixture.offline "get_me" None
           [ CallTool "auto_connect" None;
             CallTool "connect_telegram" None;
             CallTool "get_me" None;
             CallTool "no_such_tool" None ]
           Fixture.connected).
  discriminate.
Defined.

Lemma data_tools_change_only_the_backend_record_witness :
  only_calls_differ Fixture.connected
    (snd (ChatReader.callTool Fixture.online "get_messages"
            (Some [ ("entityId", JStr "me") ]) Fixture.connected)).
Proof.
  apply (@data_tools_change_only_the_backend_record Fixture.online
           "get_messages" (Some [ ("entityId", JStr "me") ])
           Fixture.connected).
  cbn. tauto.
Defined.

(** ** The connect tools, step by step *)

Section ConnectSteps.
Variable P : Platform.

Ltac run_connect :=
  unfold ChatReader.connectTelegram, ChatReader2.connectTelegram,
    ChatReader.autoConnect, ChatReader.destructure, bind, ret, try_catch,
    ChatReader.assign_session, ChatReader.assign_client,
    ChatReader.backend, ChatReader.set_session, ChatReader.set_client,
    ChatReader.rethrow, throw_Error, throw.

Lemma truthy_nonempty (s : string) : s <> "" -> truthy (JStr s) = true.
Proof.
  intros H. cbn. now destruct (String.eqb_spec s "") as [E|_]; [elim H|].
Qed.

(** [autoConnect] past its two checks, for whatever the credentials
    file parsed to. *)
Lemma autoConnect_run (args : option object) (st : state) :
  let credentials := ChatReader.loadCredentials (disk st) in
  let sessionString := ChatReader.loadSession (disk st) in
  let c := {| client_session := sessionString;
              apiId := parseInt P (ChatReader.prop "apiId" credentials);
              apiHash := ChatReader.prop "apiHash" credentials;
              connectionRetries := 5 |} in
  truthy credentials = true ->
  sessionString <> "" ->
  new_StringSession P sessionString = None ->
  new_TelegramClient P sessionString (apiId c) (apiHash c) = None ->
  ChatReader.callTool P "auto_connect" args st
  = (match connect P (calls st) c with
     | Ok _ =>
         text_envelope
           "Successfully connected to Telegram using saved session!" None
     | Throw e =>
         ChatReader.errorContent (wrapped P "Auto-connection failed: " e)
     end,
     {| client := Some c; session := sessionString; disk := disk st;
        calls := calls st ++ [Call_connect c] |}).
Proof.
  intros credentials sessionString c Ht Hne Hs Hn.
  unfold ChatReader.callTool.
  change (ChatReader.dispatch P "auto_connect" args)
    with (ChatReader.autoConnect P).
  unfold ChatReader.autoConnect.
  fold credentials sessionString.
  rewrite Ht, (truthy_nonempty Hne). cbn [negb].
  run_connect. rewrite Hs. cbn. cbn in Hn. rewrite Hn. cbn.
  fold c. now destruct (connect P (calls st) c) as [[]|[m|t|]].
Qed.

Lemma loaded_from_written (a h p token : string) (d : files) :
  d = TelegramAuthenticator.written a h p token ->
  ChatReader.loadCredentials d = TelegramAuthenticator.credentials a h p
  /\ ChatReader.loadSession d = Str.trim token.
Proof.
  intros ->. split; [|reflexivity].
  unfold ChatReader.loadCredentials, TelegramAuthenticator.written.
  cbn [credentialsFile]. now rewrite parse_credentials.
Qed.

(** [connectTelegram] of either class past its constructors. *)
Lemma connectTelegram_run (o : object) (st : state) :
  let sessionString := ChatReader.loadSession (disk st) in
  let c := {| client_session := sessionString;
              apiId := parseInt P (get "apiId" o);
              apiHash := get "apiHash" o;
              connectionRetries := 5 |} in
  let st' := {| client := Some c; session := sessionString; disk := disk st;
                calls := calls st ++ [Call_connect c] |} in
  new_StringSession P sessionString = None ->
  new_TelegramClient P sessionString (parseInt P (get "apiId" o))
    (get "apiHash" o) = None ->
  let answer :=
    match connect P (calls st) c with
    | Ok _ =>
        text_envelope
          "Successfully connected to Telegram using existing session!" None
    | Throw _ => text_envelope connection_failed None
    end in
  ChatReader.callTool P "connect_telegram" (Some o) st = (answer, st')
  /\ ChatReader2.callTool P "connect_telegram" (Some o) st = (answer, st').
Proof.
  intros sessionString c st' Hs Hn answer.
  unfold ChatReader.callTool, ChatReader2.callTool.
  change (ChatReader.dispatch P "connect_telegram" (Some o))
    with (ChatReader.connectTelegram P (Some o)).
  change (ChatReader2.dispatch P "connect_telegram" (Some o))
    with (ChatReader2.connectTelegram P (Some o)).
  run_connect. fold sessionString. rewrite Hs. cbn. rewrite Hn. cbn.
  fold c. unfold answer, st'.
  destruct (connect P (calls st) c) as [[]|e]; split; reflexivity.
Qed.

(** X4. With the files the authentication script wrote on disk, a
    session token that is not blank, constructors that accept their
    arguments and a [connect] that returns, [auto_connect] answers one
    text element reading [Successfully connected to Telegram using
    saved session!], without an [isError] key, and leaves a client
    built from the trimmed token, the parsed [apiId] and the [apiHash]
    of the credentials file, after exactly one backend call. *)
Theorem auto_connect_after_authentication
  (a h p token : string) (args : option object) (st : state) :
  let sessionString := Str.trim token in
  let c := {| client_session := sessionString;
              apiId := parseInt P (JStr a);
              apiHash := JStr h;
              connectionRetries := 5 |} in
  disk st = TelegramAuthenticator.written a h p token ->
  sessionString <> "" ->
  new_StringSession P sessionString = None ->
  new_TelegramClient P sessionString (parseInt P (JStr a)) (JStr h) = None ->
  connect P (calls st) c = Ok tt ->
  ChatReader.callTool P "auto_connect" args st
  = ({| content :=
          [ {| type := "text";
               text :=
                 "Successfully connected to Telegram using saved session!"
            |} ];
        isError := None |},
     {| client := Some c; session := sessionString; disk := disk st;
        calls := calls st ++ [Call_connect c] |}).
Proof.
  intros sessionString c Hd Hne Hs Hn Hc.
  destruct (loaded_from_written Hd) as [Hcred Hsess].
  pose proof (autoConnect_run args st) as H. cbv zeta in H.
  rewrite Hcred, Hsess in H. cbn [TelegramAuthenticator.credentials
    ChatReader.prop get String.eqb Ascii.eqb Bool.eqb apiId apiHash] in H.
  fold sessionString in H. fold c in H.
  rewrite (H eq_refl Hne Hs Hn). now rewrite Hc.
Qed.

(** X5. Under the same conditions but with a [connect] that throws,
    [auto_connect] answers the thrown message behind the prefix
    [Auto-connection failed: ], and the client that was built for the
    attempt stays in [this.client]. *)
Theorem auto_connect_failure_is_prefixed
  (a h p token : string) (e : thrown) (args : option object) (st : state) :
  let sessionString := Str.trim token in
  let c := {| client_session := sessionString;
              apiId := parseInt P (JStr a);
              apiHash := JStr h;
              connectionRetries := 5 |} in
  disk st = TelegramAuthenticator.written a h p token ->
  sessionString <> "" ->
  new_StringSession P sessionString = None ->
  new_TelegramClient P sessionString (parseInt P (JStr a)) (JStr h) = None ->
  connect P (calls st) c = Throw e ->
  ChatReader.callTool P "auto_connect" args st
  = (ChatReader.errorContent (wrapped P "Auto-connection failed: " e),
     {| client := Some c; session := sessionString; disk := disk st;
        calls := calls st ++ [Call_connect c] |}).
Proof.
  intros sessionString c Hd Hne Hs Hn Hc.
  destruct (loaded_from_written Hd) as [Hcred Hsess].
  pose proof (autoConnect_run args st) as H. cbv zeta in H.
  rewrite Hcred, Hsess in H. cbn [TelegramAuthenticator.credentials
    ChatReader.prop get String.eqb Ascii.eqb Bool.eqb apiId apiHash] in H.
  fold sessionString in H. fold c in H.
  rewrite (H eq_refl Hne Hs Hn). now rewrite Hc.
Qed.

(** X6. [connect_telegram] never reports why the connection failed:
    when the constructors accept their arguments and [connect] throws,
    the answer is one fixed text, the same for every thrown value,
    without the [Error: ] prefix and without an [isError] key; when
    [connect] returns, it is the success text, also without [isError].
    Either way the new client and the session read from disk are in
    place after one backend call.  The same holds in the second chat
    reader. *)
Theorem connect_telegram_has_two_answers (o : object) (st : state) :
  let sessionString := ChatReader.loadSession (disk st) in
  let c := {| client_session := sessionString;
              apiId := parseInt P (get "apiId" o);
              apiHash := get "apiHash" o;
              connectionRetries := 5 |} in
  let st' := {| client := Some c; session := sessionString; disk := disk st;
                calls := calls st ++ [Call_connect c] |} in
  let failed :=
    {| content :=
         [ {| type := "text";
              text :=
                "Connection failed. Please ensure you have run the authentication script first to save your session."
           |} ];
       isError := None |} in
  let succeeded :=
    {| content :=
         [ {| type := "text";
              text :=
                "Successfully connected to Telegram using existing session!"
           |} ];
       isError := None |} in
  new_StringSession P sessionString = None ->
  new_TelegramClient P sessionString (parseInt P (get "apiId" o))
    (get "apiHash" o) = None ->
  (forall e,
      connect P (calls st) c = Throw e ->
      ChatReader.callTool P "connect_telegram" (Some o) st = (failed, st')
      /\ ChatReader2.callTool P "connect_telegram" (Some o) st
         = (failed, st'))
  /\ (connect P (calls st) c = Ok tt ->
      ChatReader.callTool P "connect_telegram" (Some o) st
      = (succeeded, st')
      /\ ChatReader2.callTool P "connect_telegram" (Some o) st
         = (succeeded, st')).
Proof.
  intros sessionString c st' failed succeeded Hs Hn.
  destruct (connectTelegram_run o st Hs Hn) as [H1 H2].
  fold sessionString in H1, H2. fold c in H1, H2.
  split.
  - intros e He. rewrite He in H1, H2. split; [exact H1 | exact H2].
  - intros Hok. rewrite Hok in H1, H2. split; [exact H1 | exact H2].
Qed.

(** X7. A constructor that throws stops a connect tool before any
    backend call, and the thrown [Error] is what the envelope shows.
    When [new StringSession] throws, [connect_telegram] leaves the
    state untouched; when [new TelegramClient] throws, the session
    field has already been replaced but the client field is as
    before. *)
Theorem rejected_constructor_stops_connect
  (o : object) (st : state) (m : string) :
  let sessionString := ChatReader.loadSession (disk st) in
  (new_StringSession P sessionString = Some (ThrownError m) ->
   ChatReader.callTool P "connect_telegram" (Some o) st
   = (ChatReader.errorContent m, st))
  /\ (new_StringSession P sessionString = None ->
      new_TelegramClient P sessionString (parseInt P (get "apiId" o))
        (get "apiHash" o) = Some (ThrownError m) ->
      ChatReader.callTool P "connect_telegram" (Some o) st
      = (ChatReader.errorContent m,
         {| client := client st; session := sessionString;
            disk := disk st; calls := calls st |})).
Proof.
  intros sessionString. split.
  - intros Hs. unfold ChatReader.callTool.
    change (ChatReader.dispatch P "connect_telegram" (Some o))
      with (ChatReader.connectTelegram P (Some o)).
    run_connect. fold sessionString. now rewrite Hs.
  - intros Hs Hn. unfold ChatReader.callTool.
    change (ChatReader.dispatch P "connect_telegram" (Some o))
      with (ChatReader.connectTelegram P (Some o)).
    run_connect. fold sessionString. rewrite Hs. cbn. now rewrite Hn.
Qed.

(** X8. [auto_connect] makes no check of its own on the credentials
    beyond their being truthy: whatever the reads of [apiId] and
    [apiHash] give, [undefined] when the field is missing, goes to the
    [TelegramClient] constructor.  When the constructor refuses them,
    its [Error] message is answered without the [Auto-connection
    failed: ] prefix and with no backend call, the session field
    already replaced and the client field as before; when it accepts
    them, the client built from those values is kept. *)
Theorem auto_connect_does_not_validate_credentials
  (args : option object) (st : state) :
  let credentials := ChatReader.loadCredentials (disk st) in
  let sessionString := ChatReader.loadSession (disk st) in
  let id := parseInt P (ChatReader.prop "apiId" credentials) in
  let hash := ChatReader.prop "apiHash" credentials in
  truthy credentials = true ->
  sessionString <> "" ->
  new_StringSession P sessionString = None ->
  (forall m,
      new_TelegramClient P sessionString id hash = Some (ThrownError m) ->
      ChatReader.callTool P "auto_connect" args st
      = ({| content := [ {| type := "text"; text := "Error: " ++ m |} ];
            isError := Some false |},
         {| client := client st; session := sessionString; disk := disk st;
            calls := calls st |}))
  /\ (new_TelegramClient P sessionString id hash = None ->
      let c := {| client_session := sessionString; apiId := id;
                  apiHash := hash; connectionRetries := 5 |} in
      client (snd (ChatReader.callTool P "auto_connect" args st)) = Some c
      /\ calls (snd (ChatReader.callTool P "auto_connect" args st))
         = (calls st ++ [Call_connect c])%list).
Proof.
  intros credentials sessionString id hash Ht Hne Hs. split.
  - intros m Hn. unfold ChatReader.callTool.
    change (ChatReader.dispatch P "auto_connect" args)
      with (ChatReader.autoConnect P).
    unfold ChatReader.autoConnect.
    fold credentials sessionString.
    rewrite Ht, (truthy_nonempty Hne). cbn [negb].
    run_connect. rewrite Hs. cbn. fold id hash. now rewrite Hn.
  - intros Hn c.
    rewrite (autoConnect_run args st Ht Hne Hs Hn). split; reflexivity.
Qed.

End ConnectSteps.

Lemma auto_connect_after_authentication_witness :
  ChatReader.callTool Scenario.library "auto_connect" None
    (ChatReader.start Scenario.authenticated_files)
  = ({| content :=
          [ {| type := "text";
               text :=
                 "Successfully connected to Telegram using saved session!"
            |} ];
        isError := None |},
     {| client := Some Scenario.authenticated_client;
        session := Scenario.session_token;
        disk := Scenario.authenticated_files;
        calls := [ Call_connect Scenario.authenticated_client ] |}).
Proof.
  apply (@auto_connect_after_authentication Scenario.library "123" "abc"
           "+10000000000" (Scenario.session_token ++ JSON.newline) None
           (ChatReader.start Scenario.authenticated_files));
    [ reflexivity | vm_compute; discriminate
    | vm_compute; reflexivity | vm_compute; reflexivity
    | vm_compute; reflexivity ].
Defined.

Lemma auto_connect_failure_is_prefixed_witness :
  ChatReader.callTool Fixture.offline "auto_connect" None
    (ChatReader.start Scenario.padded_files)
  = (ChatReader.errorContent "Auto-connection failed: connect ECONNREFUSED",
     {| client := Some Scenario.saved_client;
        session := "1BQANOTEuMTA4LjU2";
        disk := Scenario.padded_files;
        calls := [ Call_connect Scenario.saved_client ] |}).
Proof.
  apply (@auto_connect_failure_is_prefixed Fixture.offline "123" "abc"
           "+10000000000" "  1BQANOTEuMTA4LjU2  "
           (ThrownError "connect ECONNREFUSED") None
           (ChatReader.start Scenario.padded_files));
    [reflexivity | discriminate | reflexivity | reflexivity | reflexivity].
Defined.

Lemma connect_telegram_has_two_answers_witness :
  fst (ChatReader.callTool Fixture.offline "connect_telegram"
         (Some Fixture.manual_args) (ChatReader.start Fixture.no_files))
  = {| content :=
         [ {| type := "text";
              text :=
                "Connection failed. Please ensure you have run the authentication script first to save your session."
           |} ];
       isError := None |}
  /\ fst (ChatReader2.callTool Scenario.library "connect_telegram"
            (Some Fixture.manual_args)
            (ChatReader.start Scenario.authenticated_files))
     = {| content :=
            [ {| type := "text";
                 text :=
                   "Successfully connected to Telegram using existing session!"
              |} ];
          isError := None |}.
Proof.
  split.
  - destruct (@connect_telegram_has_two_answers Fixture.offline
                Fixture.manual_args (ChatReader.start Fixture.no_files)
                eq_refl eq_refl) as [H _].
    destruct (H (ThrownError "connect ECONNREFUSED") eq_refl) as [H1 _].
    exact (f_equal fst H1).
  - assert (Hs : new_StringSession Scenario.library
                   (ChatReader.loadSession
                      (disk (ChatReader.start Scenario.authenticated_files)))
                 = None) by (vm_compute; reflexivity).
    assert (Hn : new_TelegramClient Scenario.library
                   (ChatReader.loadSession
                      (disk (ChatReader.start Scenario.authenticated_files)))
                   (parseInt Scenario.library
                      (get "apiId" Fixture.manual_args))
                   (get "apiHash" Fixture.manual_args)
                 = None) by (vm_compute; reflexivity).
    destruct (@connect_telegram_has_two_answers Scenario.library
                Fixture.manual_args
                (ChatReader.start Scenario.authenticated_files) Hs Hn)
      as [_ H].
    destruct (H eq_refl) as [_ H2].
    exact (f_equal fst H2).
Defined.

Lemma rejected_constructor_stops_connect_witness :
  ChatReader.callTool Scenario.strict_session "connect_telegram"
    (Some Fixture.manual_args) (ChatReader.start Fixture.saved_files)
  = (ChatReader.errorContent "Not a valid string",
     ChatReader.start Fixture.saved_files)
  /\ ChatReader.callTool Scenario.strict_client "connect_telegram"
       (Some []) (ChatReader.start Fixture.saved_files)
     = (ChatReader.errorContent
          "Your API ID or Hash cannot be empty or undefined",
        {| client := None; session := "1BQANOTEuMTA4LjU2";
           disk := Fixture.saved_files; calls := [] |}).
Proof.
  split.
  - apply (@rejected_constructor_stops_connect Scenario.strict_session
             Fixture.manual_args (ChatReader.start Fixture.saved_files)
             "Not a valid string").
    reflexivity.
  - destruct (@rejected_constructor_stops_connect Scenario.strict_client
                [] (ChatReader.start Fixture.saved_files)
                "Your API ID or Hash cannot be empty or undefined")
      as [_ H].
    exact (H eq_refl eq_refl).
Defined.

Lemma auto_connect_does_not_validate_credentials_witness :
  ChatReader.callTool Scenario.library "auto_connect" None
    (ChatReader.start Scenario.empty_credentials)
  = ({| content :=
          [ {| type := "text";
               text :=
                 "Error: Your API ID or Hash cannot be empty or undefined"
            |} ];
        isError := Some false |},
     {| client := None; session := Scenario.session_token;
        disk := Scenario.empty_credentials; calls := [] |}).
Proof.
  assert (Hne : ChatReader.loadSession
                  (disk (ChatReader.start Scenario.empty_credentials))
                <> "") by (vm_compute; discriminate).
  assert (Hs : new_StringSession Scenario.library
                 (ChatReader.loadSession
                    (disk (ChatReader.start Scenario.empty_credentials)))
               = None) by (vm_compute; reflexivity).
  destruct (@auto_connect_does_not_validate_credentials Scenario.library
              None (ChatReader.start Scenario.empty_credentials)
              eq_refl Hne Hs) as [H _].
  rewrite (H "Your API ID or Hash cannot be empty or undefined"
             ltac:(vm_compute; reflexivity)).
  vm_compute. reflexivity.
Defined.

(** ** The data tools, step by step *)

Section DataSteps.
Variable P : Platform.

Ltac run_data :=
  unfold ChatReader.getDialogs, ChatReader.getMessages,
    ChatReader.searchGlobal, ChatReader.getMe, ChatReader.destructure,
    bind, ret, try_catch, ChatReader.backend, ChatReader.rethrow,
    throw_Error, throw.


(** X11. A tool call without an arguments object fails in the
    destructuring, before any backend call and without touching the
    state: [connect_telegram] in every state, and with a client in
    place also [get_dialogs], [get_messages] and [search_global].  The
    answer is the error envelope with the TypeError for the first
    property of the pattern; the default of [limit] does not help
    [get_dialogs]. *)
Theorem missing_arguments_object_is_an_error (st : state) :
  let refused (property : string) :=
    ({| content :=
          [ {| type := "text";
               text := "Error: " ++ destructure_TypeError P property |} ];
        isError := Some false |}, st) in
  ChatReader.callTool P "connect_telegram" None st = refused "apiId"
  /\ ChatReader2.callTool P "connect_telegram" None st = refused "apiId"
  /\ (forall c,
         client st = Some c ->
         ChatReader.callTool P "get_dialogs" None st = refused "limit"
         /\ ChatReader.callTool P "get_messages" None st
            = refused "entityId"
         /\ ChatReader.callTool P "search_global" None st
            = refused "query").
Proof.
  intros refused. split; [reflexivity|]. split; [reflexivity|].
  intros c Hc. repeat split.
  - unfold ChatReader.callTool.
    change (ChatReader.dispatch P "get_dialogs" None)
      with (ChatReader.getDialogs P None).
    run_data. now rewrite Hc.
  - unfold ChatReader.callTool.
    change (ChatReader.dispatch P "get_messages" None)
      with (ChatReader.getMessages P None).
    run_data. now rewrite Hc.
  - unfold ChatReader.callTool.
    change (ChatReader.dispatch P "search_global" None)
      with (ChatReader.searchGlobal P None).
    run_data. now rewrite Hc.
Qed.

(** X12. With a client in place, [get_dialogs] forwards [limit] to the
    backend exactly as given whenever the arguments have one, without
    any bound or type check, and forwards 100 when they have none. *)
Theorem get_dialogs_limit_is_forwarded
  (o : object) (st : state) (c : TelegramClient) :
  client st = Some c ->
  (get "limit" o <> JUndefined ->
   calls (snd (ChatReader.callTool P "get_dialogs" (Some o) st))
   = (calls st ++ [ Call_getDialogs c (get "limit" o) ])%list)
  /\ (get "limit" o = JUndefined ->
      calls (snd (ChatReader.callTool P "get_dialogs" (Some o) st))
      = (calls st ++ [ Call_getDialogs c (JNum 100) ])%list).
Proof.
  intros Hc.
  pose proof (get_dialogs_with_client_calls_backend P o st Hc) as H.
  split; intros Hl; rewrite H.
  - now destruct (get "limit" o).
  - now rewrite Hl.
Qed.

(** X13. With a client in place, [get_messages] resolves the entity
    first, from [entityId] as given (also when it is missing).  When
    that call throws, the messages are never fetched and the envelope
    shows the thrown message behind [Could not get messages: ]; when the
    fetch throws, the same prefix is used. *)
Theorem get_messages_wraps_both_backend_calls
  (o : object) (st : state) (c : TelegramClient) :
  let entityId := get "entityId" o in
  let limit := with_default (JNum 50) (get "limit" o) in
  let offsetId := get "offsetId" o in
  let resolved :=
    {| client := client st; session := session st; disk := disk st;
       calls := calls st ++ [ Call_getEntity c entityId ] |} in
  client st = Some c ->
  (forall e,
      client_getEntity P (calls st) c entityId = Throw e ->
      ChatReader.callTool P "get_messages" (Some o) st
      = (ChatReader.errorContent (wrapped P "Could not get messages: " e),
         resolved))
  /\ (forall entity e,
         client_getEntity P (calls st) c entityId = Ok entity ->
         client_getMessages P (calls resolved) c entity limit offsetId
         = Throw e ->
         ChatReader.callTool P "get_messages" (Some o) st
         = (ChatReader.errorContent (wrapped P "Could not get messages: " e),
            {| client := client st; session := session st; disk := disk st;
               calls := calls resolved
                        ++ [ Call_getMessages c entity limit offsetId ] |})).
Proof.
  intros entityId limit offsetId resolved Hc. split.
  - intros e He. unfold ChatReader.callTool.
    change (ChatReader.dispatch P "get_messages" (Some o))
      with (ChatReader.getMessages P (Some o)).
    run_data. rewrite Hc. cbn. fold entityId. rewrite He.
    unfold resolved. rewrite ?Hc. now destruct e.
  - intros entity e He Hm. unfold ChatReader.callTool.
    change (ChatReader.dispatch P "get_messages" (Some o))
      with (ChatReader.getMessages P (Some o)).
    run_data. rewrite Hc. cbn. fold entityId limit offsetId.
    rewrite He. cbn. cbn in Hm. rewrite Hm.
    unfold resolved. rewrite ?Hc. now destruct e.
Qed.

(** X14. With a client in place, [search_global] makes exactly one
    backend call, with [query] as given and [limit] as given or 50.
    When the call returns, the answer is one text element holding the
    JSON text of the reply, flagged [isError: false]; when it throws,
    the answer is the error envelope with the thrown message behind
    [Search failed: ]. *)
Theorem search_global_answer (o : object) (st : state) (c : TelegramClient) :
  let query := get "query" o in
  let limit := with_default (JNum 50) (get "limit" o) in
  let st' :=
    {| client := client st; session := session st; disk := disk st;
       calls := calls st ++ [ Call_invoke_SearchGlobal c query limit ] |} in
  client st = Some c ->
  (forall reply,
      client_invoke_SearchGlobal P (calls st) c query limit = Ok reply ->
      ChatReader.callTool P "search_global" (Some o) st
      = ({| content :=
              [ {| type := "text";
                   text := JSON.stringify (JObj reply) |} ];
            isError := Some false |}, st'))
  /\ (forall e,
         client_invoke_SearchGlobal P (calls st) c query limit = Throw e ->
         ChatReader.callTool P "search_global" (Some o) st
         = ({| content :=
                 [ {| type := "text";
                      text := "Error: " ++ wrapped P "Search failed: " e |} ];
               isError := Some false |}, st')).
Proof.
  intros query limit st' Hc.
  assert (H : ChatReader.callTool P "search_global" (Some o) st
              = (match client_invoke_SearchGlobal P (calls st) c query limit
                 with
                 | Ok reply =>
                     text_envelope (JSON.stringify (JObj reply)) (Some false)
                 | Throw e =>
                     ChatReader.errorContent (wrapped P "Search failed: " e)
                 end, st')).
  { unfold ChatReader.callTool, st'.
    change (ChatReader.dispatch P "search_global" (Some o))
      with (ChatReader.searchGlobal P (Some o)).
    run_data. rewrite Hc. cbn. fold query limit.
    destruct (client_invoke_SearchGlobal P (calls st) c query limit)
      as [reply|[m|t|]]; reflexivity. }
  split.
  - intros reply Hr. rewrite H, Hr. reflexivity.
  - intros e He. rewrite H, He. reflexivity.
Qed.

End DataSteps.


Lemma missing_arguments_object_is_an_error_witness :
  ChatReader.callTool Fixture.online "get_dialogs" None Fixture.connected
  = ({| content :=
          [ {| type := "text";
               text := "Error: "
                         ++ destructure_TypeError Fixture.online "limit" |} ];
        isError := Some false |}, Fixture.connected).
Proof.
  destruct (@missing_arguments_object_is_an_error Fixture.online
              Fixture.connected) as (_ & _ & H).
  destruct (H Fixture.manual_client eq_refl) as (H1 & _).
  exact H1.
Defined.

Lemma get_dialogs_limit_is_forwarded_witness :
  calls (snd (ChatReader.callTool Fixture.online "get_dialogs"
                (Some [ ("limit", JNum (-5)) ]) Fixture.connected))
  = [ Call_connect Fixture.manual_client;
      Call_getDialogs Fixture.manual_client (JNum (-5)) ]
  /\ calls (snd (ChatReader.callTool Fixture.online "get_dialogs"
                   (Some [ ("query", JStr "x") ]) Fixture.connected))
     = [ Call_connect Fixture.manual_client;
         Call_getDialogs Fixture.manual_client (JNum 100) ].
Proof.
  split.
  - destruct (@get_dialogs_limit_is_forwarded Fixture.online
                [ ("limit", JNum (-5)) ] Fixture.connected
                Fixture.manual_client eq_refl) as [H _].
    apply H. discriminate.
  - destruct (@get_dialogs_limit_is_forwarded Fixture.online
                [ ("query", JStr "x") ] Fixture.connected
                Fixture.manual_client eq_refl) as [_ H].
    apply H. reflexivity.
Defined.

Lemma get_messages_wraps_both_backend_calls_witness :
  ChatReader.callTool Scenario.unresolved "get_messages" (Some [])
    Fixture.connected
  = (ChatReader.errorContent "Could not get messages: Cannot find any entity",
     {| client := Some Fixture.manual_client; session := "";
        disk := Fixture.no_files;
        calls := [ Call_connect Fixture.manual_client;
                   Call_getEntity Fixture.manual_client JUndefined ] |})
  /\ fst (ChatReader.callTool Fixture.limited "get_messages"
            (Some [ ("entityId", JStr "me") ]) Fixture.connected)
     = ChatReader.errorContent "Could not get messages: FLOOD_WAIT_30".
Proof.
  split.
  - destruct (@get_messages_wraps_both_backend_calls Scenario.unresolved
                [] Fixture.connected Fixture.manual_client eq_refl)
      as [H _].
    exact (H (ThrownError "Cannot find any entity") eq_refl).
  - destruct (@get_messages_wraps_both_backend_calls Fixture.limited
                [ ("entityId", JStr "me") ] Fixture.connected
                Fixture.manual_client eq_refl) as [_ H].
    exact (f_equal fst
             (H Api_other (ThrownError "FLOOD_WAIT_30") eq_refl eq_refl)).
Defined.

Lemma search_global_answer_witness :
  ChatReader.callTool Fixture.online "search_global"
    (Some [ ("query", JStr "rocq") ]) Fixture.connected
  = ({| content := [ {| type := "text"; text := "{}" |} ];
        isError := Some false |},
     {| client := Some Fixture.manual_client; session := "";
        disk := Fixture.no_files;
        calls := [ Call_connect Fixture.manual_client;
                   Call_invoke_SearchGlobal Fixture.manual_client
                     (JStr "rocq") (JNum 50) ] |}).
Proof.
  destruct (@search_global_answer Fixture.online [ ("query", JStr "rocq") ]
              Fixture.connected Fixture.manual_client eq_refl) as [H _].
  exact (H [] eq_refl).
Defined.

(** ** The bot server, step by step *)

Section BotSteps.
Variable B : BotApi.Platform.

Ltac run_bot :=
  unfold BotApi.callTool;
  cbn [BotApi.dispatch String.eqb Ascii.eqb Bool.eqb];
  unfold BotApi.sendTelegramMessage, BotApi.sendTelegramPhoto,
    BotApi.getTelegramUpdates, BotApi.destructure, bind, ret,
    BotApi.backend, throw_Error, throw.

(** The two send tools, run to the end. *)
Lemma bot_send_run (o : object) (log : BotApi.state) :
  let chatId := get "chatId" o in
  let mode := get "parseMode" o in
  let caption := get "caption" o in
  let mode_options : object :=
    if truthy mode then [ ("parse_mode", mode) ] else [] in
  let caption_options : object :=
    if truthy caption then [ ("caption", caption) ] else [] in
  BotApi.callTool B "send_telegram_message" (Some o) log
  = (match BotApi.sendMessage B log chatId (get "message" o) mode_options
     with
     | Ok sent =>
         text_envelope
           ("Message sent successfully! Message ID: "
              ++ Z_toString (BotApi.message_id sent)) None
     | Throw e => BotApi.errorContent (errorMessage e)
     end,
     (log ++ [ BotApi.Call_sendMessage chatId (get "message" o)
                 mode_options ])%list)
  /\ BotApi.callTool B "send_telegram_photo" (Some o) log
     = (match BotApi.sendPhoto B log chatId (get "photo" o) caption_options
        with
        | Ok sent =>
            text_envelope
              ("Photo sent successfully! Message ID: "
                 ++ Z_toString (BotApi.message_id sent)) None
        | Throw e => BotApi.errorContent (errorMessage e)
        end,
        (log ++ [ BotApi.Call_sendPhoto chatId (get "photo" o)
                    caption_options ])%list).
Proof.
  intros chatId mode caption mode_options caption_options. split.
  - run_bot. fold chatId mode.
    replace (if truthy mode then set "parse_mode" mode [] else [])
      with mode_options by (unfold mode_options; now destruct (truthy mode)).
    now destruct (BotApi.sendMessage B log chatId (get "message" o)
                    mode_options).
  - run_bot. fold chatId caption.
    replace (if truthy caption then set "caption" caption [] else [])
      with caption_options
      by (unfold caption_options; now destruct (truthy caption)).
    now destruct (BotApi.sendPhoto B log chatId (get "photo" o)
                    caption_options).
Qed.

(** X15. [send_telegram_message] and [send_telegram_photo] make one bot
    call each; the options object carries [parse_mode] (or [caption])
    exactly when the argument is truthy, so an empty string is dropped
    like a missing one.  When the bot call returns, the answer is one
    text element that names the id of the sent message, without an
    [isError] key; when it throws an [Error], the answer is one text
    element reading [Error: ] and its message, also without
    [isError]. *)
Theorem bot_send_answers (o : object) (log : BotApi.state) :
  let chatId := get "chatId" o in
  let mode := get "parseMode" o in
  let caption := get "caption" o in
  let mode_options : object :=
    if truthy mode then [ ("parse_mode", mode) ] else [] in
  let caption_options : object :=
    if truthy caption then [ ("caption", caption) ] else [] in
  let message_log :=
    (log ++ [ BotApi.Call_sendMessage chatId (get "message" o)
                mode_options ])%list in
  let photo_log :=
    (log ++ [ BotApi.Call_sendPhoto chatId (get "photo" o)
                caption_options ])%list in
  (forall id,
      BotApi.sendMessage B log chatId (get "message" o) mode_options
      = Ok {| BotApi.message_id := id |} ->
      BotApi.callTool B "send_telegram_message" (Some o) log
      = ({| content :=
              [ {| type := "text";
                   text := "Message sent successfully! Message ID: "
                             ++ Z_toString id |} ];
            isError := None |}, message_log))
  /\ (forall m,
         BotApi.sendMessage B log chatId (get "message" o) mode_options
         = Throw (ThrownError m) ->
         BotApi.callTool B "send_telegram_message" (Some o) log
         = ({| content := [ {| type := "text"; text := "Error: " ++ m |} ];
               isError := None |}, message_log))
  /\ (forall id,
         BotApi.sendPhoto B log chatId (get "photo" o) caption_options
         = Ok {| BotApi.message_id := id |} ->
         BotApi.callTool B "send_telegram_photo" (Some o) log
         = ({| content :=
                 [ {| type := "text";
                      text := "Photo sent successfully! Message ID: "
                                ++ Z_toString id |} ];
               isError := None |}, photo_log))
  /\ (forall m,
         BotApi.sendPhoto B log chatId (get "photo" o) caption_options
         = Throw (ThrownError m) ->
         BotApi.callTool B "send_telegram_photo" (Some o) log
         = ({| content := [ {| type := "text"; text := "Error: " ++ m |} ];
               isError := None |}, photo_log)).
Proof.
  intros chatId mode caption mode_options caption_options message_log
    photo_log.
  destruct (bot_send_run o log) as [H1 H2]. cbv zeta in H1, H2.
  fold chatId mode mode_options in H1.
  fold chatId caption caption_options in H2.
  repeat split.
  - intros id H. now rewrite H1, H.
  - intros m H. now rewrite H1, H.
  - intros id H. now rewrite H2, H.
  - intros m H. now rewrite H2, H.
Qed.

Lemma bot_updates_run (o : object) (log : BotApi.state) :
  let limit := with_default (JNum 10) (get "limit" o) in
  BotApi.callTool B "get_telegram_updates" (Some o) log
  = (match BotApi.getUpdates B log limit with
     | Ok updates =>
         text_envelope (JSON.stringify (JArr (map JObj updates))) None
     | Throw e => BotApi.errorContent (errorMessage e)
     end,
     (log ++ [ BotApi.Call_getUpdates limit ])%list).
Proof.
  intros limit. run_bot. fold limit.
  now destruct (BotApi.getUpdates B log limit).
Qed.

(** X16. [get_telegram_updates] hands [limit] to the bot as given,
    whatever its value (the range 1 to 100 of the schema is not
    enforced), and hands 10 when the arguments have none; when the bot
    call returns, the answer is one text element holding the JSON text
    of the array of updates, without an [isError] key. *)
Theorem bot_updates_limit_is_forwarded (o : object) (log : BotApi.state) :
  let limit := with_default (JNum 10) (get "limit" o) in
  (forall updates,
      BotApi.getUpdates B log limit = Ok updates ->
      BotApi.callTool B "get_telegram_updates" (Some o) log
      = ({| content :=
              [ {| type := "text";
                   text := JSON.stringify (JArr (map JObj updates)) |} ];
            isError := None |},
         (log ++ [ BotApi.Call_getUpdates limit ])%list))
  /\ (get "limit" o <> JUndefined ->
      snd (BotApi.callTool B "get_telegram_updates" (Some o) log)
      = (log ++ [ BotApi.Call_getUpdates (get "limit" o) ])%list)
  /\ (get "limit" o = JUndefined ->
      snd (BotApi.callTool B "get_telegram_updates" (Some o) log)
      = (log ++ [ BotApi.Call_getUpdates (JNum 10) ])%list).
Proof.
  intros limit. pose proof (bot_updates_run o log) as H. cbv zeta in H.
  fold limit in H. split.
  - intros updates Hu. now rewrite H, Hu.
  - rewrite H. cbn [snd]. unfold limit. split; intros Hl.
    + now destruct (get "limit" o).
    + now rewrite Hl.
Qed.

(** X17. A request to the bot server makes exactly one bot call when it
    names one of the three tools and brings an arguments object, and
    none when the arguments object is missing, whatever the name. *)
Theorem bot_calls_per_request
  (name : string) (o : object) (log : BotApi.state) :
  (In name BotApi.case_labels ->
   exists c, snd (BotApi.callTool B name (Some o) log) = (log ++ [c])%list)
  /\ snd (BotApi.callTool B name None log) = log.
Proof.
  split.
  - intros Hin. cbn in Hin. destruct Hin as [<-|[<-|[<-|[]]]].
    + destruct (bot_send_run o log) as [H _]. rewrite H. cbn [snd]. eauto.
    + rewrite (bot_updates_run o log). cbn [snd]. eauto.
    + destruct (bot_send_run o log) as [_ H]. rewrite H. cbn [snd]. eauto.
  - unfold BotApi.callTool, BotApi.dispatch.
    repeat match goal with
           | |- context [if ?b then _ else _] => destruct b
           end; reflexivity.
Qed.

End BotSteps.

Lemma bot_send_answers_witness :
  BotApi.callTool Fixture.bot "send_telegram_message"
    (Some [ ("chatId", JStr "42"); ("message", JStr "hi");
            ("parseMode", JStr "") ]) []
  = ({| content :=
          [ {| type := "text";
               text := "Message sent successfully! Message ID: 7" |} ];
        isError := None |},
     [ BotApi.Call_sendMessage (JStr "42") (JStr "hi") [] ])
  /\ BotApi.callTool Fixture.bot "send_telegram_photo"
       (Some [ ("chatId", JStr "42"); ("photo", JStr "cat.png");
               ("caption", JStr "Tom") ]) []
     = ({| content :=
             [ {| type := "text";
                  text := "Error: ETELEGRAM: 400 Bad Request" |} ];
           isError := None |},
        [ BotApi.Call_sendPhoto (JStr "42") (JStr "cat.png")
            [ ("caption", JStr "Tom") ] ]).
Proof.
  split.
  - destruct (@bot_send_answers Fixture.bot
                [ ("chatId", JStr "42"); ("message", JStr "hi");
                  ("parseMode", JStr "") ] []) as (H & _).
    exact (H 7%Z eq_refl).
  - destruct (@bot_send_answers Fixture.bot
                [ ("chatId", JStr "42"); ("photo", JStr "cat.png");
                  ("caption", JStr "Tom") ] []) as (_ & _ & _ & H).
    exact (H "ETELEGRAM: 400 Bad Request" eq_refl).
Defined.

Lemma bot_calls_per_request_witness :
  exists c,
    snd (BotApi.callTool Fixture.bot "send_telegram_photo"
           (Some [ ("chatId", JStr "42") ]) [])
    = [c].
Proof.
  destruct (@bot_calls_per_request Fixture.bot "send_telegram_photo"
              [ ("chatId", JStr "42") ] []) as [H _].
  apply H. cbn. tauto.
Defined.

Lemma bot_updates_limit_is_forwarded_witness :
  snd (BotApi.callTool Fixture.bot "get_telegram_updates"
         (Some [ ("limit", JNum 1000) ]) [])
  = [ BotApi.Call_getUpdates (JNum 1000) ]
  /\ snd (BotApi.callTool Fixture.bot "get_telegram_updates" (Some []) [])
     = [ BotApi.Call_getUpdates (JNum 10) ].
Proof.
  split.
  - destruct (@bot_updates_limit_is_forwarded Fixture.bot
                [ ("limit", JNum 1000) ] []) as (_ & H & _).
    apply H. discriminate.
  - destruct (@bot_updates_limit_is_forwarded Fixture.bot [] [])
      as (_ & _ & H).
    apply H. reflexivity.
Defined.

(** ** Interrupts and the authentication script *)


(** X19. The authentication script never rejects and always closes its
    readline interface last.  Nothing is written unless the client was
    constructed, [start] returned and [session.save()] is truthy.  The
    session file is written first: when that write throws, the
    credentials file is as it was; when it returns and the write of
    the credentials file throws, the disk holds the new session next
    to whatever the failed write left of the credentials file.  When
    both writes return the disk is what [authenticate_save] gives.  A
    throwing write is caught and reported like a failed [start], and
    the client is disconnected exactly when every step before the
    [disconnect] returned. *)
Theorem authenticate_outcome (w : AuthenticationFlow.World) (d : files) :
  let r := AuthenticationFlow.authenticate w (d, []) in
  let after := fst (snd r) in
  let events := snd (snd r) in
  let reached_save :=
    AuthenticationFlow.construct w = None
    /\ AuthenticationFlow.start w = None in
  let saving := AuthenticationFlow.save w <> "" in
  let both_written :=
    AuthenticationFlow.write_session w = AuthenticationFlow.Written
    /\ AuthenticationFlow.write_credentials w = AuthenticationFlow.Written in
  fst r = Ok tt
  /\ last events AuthenticationFlow.Started = AuthenticationFlow.Closed
  /\ (~ (reached_save /\ saving) -> after = d)
  /\ (reached_save -> (saving -> both_written) ->
      after
      = TelegramAuthenticator.authenticate_save
          (AuthenticationFlow.answer_apiId w)
          (AuthenticationFlow.answer_apiHash w)
          (AuthenticationFlow.answer_phoneNumber w)
          (AuthenticationFlow.save w) d)
  /\ (forall e rest,
         reached_save -> saving ->
         AuthenticationFlow.write_session w
         = AuthenticationFlow.WriteFails e rest ->
         after = {| credentialsFile := credentialsFile d;
                    sessionFile := rest |}
         /\ events = [ AuthenticationFlow.Started;
                       AuthenticationFlow.Failed e;
                       AuthenticationFlow.Closed ])
  /\ (forall e rest,
         reached_save -> saving ->
         AuthenticationFlow.write_session w = AuthenticationFlow.Written ->
         AuthenticationFlow.write_credentials w
         = AuthenticationFlow.WriteFails e rest ->
         after = {| credentialsFile := rest;
                    sessionFile := Content (AuthenticationFlow.save w) |}
         /\ events = [ AuthenticationFlow.Started;
                       AuthenticationFlow.Failed e;
                       AuthenticationFlow.Closed ])
  /\ (In AuthenticationFlow.Disconnected events
      <-> reached_save /\ (saving -> both_written)).
Proof.
  unfold AuthenticationFlow.authenticate, AuthenticationFlow.finally,
    try_catch, bind, AuthenticationFlow.construct_client,
    AuthenticationFlow.perform, AuthenticationFlow.save_files,
    AuthenticationFlow.writeFileSync_session,
    AuthenticationFlow.writeFileSync_credentials,
    TelegramAuthenticator.authenticate_save, TelegramAuthenticator.written,
    ret, throw.
  destruct (AuthenticationFlow.construct w) as [e1|]; cbn;
    [|destruct (AuthenticationFlow.start w) as [e2|]; cbn;
      [|destruct (AuthenticationFlow.save w) as [|ch rest]; cbn;
        [|destruct (AuthenticationFlow.write_session w) as [|e4 l4]; cbn;
          [destruct (AuthenticationFlow.write_credentials w) as [|e5 l5];
           cbn|]];
        destruct (AuthenticationFlow.disconnect w) as [e3|]; cbn]];
    repeat match goal with
      | |- _ /\ _ => split
      | |- _ <-> _ => split
      | |- forall _, _ => intro
      | |- ~ _ => intro
      | H : _ /\ _ |- _ => destruct H
      | H : _ \/ _ |- _ => destruct H
      | H : False |- _ => contradiction
      | H : ?x <> ?x |- _ => now destruct H
      | H : AuthenticationFlow.WriteFails _ _
            = AuthenticationFlow.WriteFails _ _ |- _ =>
          injection H as -> ->
      | H : (?a -> _ /\ _) |- _ =>
          match type of a with
          | Prop => let K := fresh in
                    assert (K : a) by discriminate; specialize (H K)
          end
      end;
    try discriminate; try reflexivity; try congruence; auto;
    exfalso;
    match goal with
    | H : ~ _ |- _ => apply H; repeat split; discriminate
    end.
Qed.

(** ** Shapes and names *)

Lemma trimStart_first (s : string) :
  Str.first_is_space (Str.trimStart s) = false.
Proof.
  induction s as [|c s IH]; [reflexivity|]. cbn [Str.trimStart].
  destruct (Str.is_space c) eqn:E; [exact IH | cbn; exact E].
Qed.

Lemma trimEnd_last (s : string) : Str.last_is_space (Str.trimEnd s) = false.
Proof.
  induction s as [|c s IH]; [reflexivity|]. cbn [Str.trimEnd].
  destruct (Str.trimEnd s) as [|c' s'] eqn:E.
  - destruct (Str.is_space c) eqn:Ec; cbn; [reflexivity | exact Ec].
  - exact IH.
Qed.

Lemma trimEnd_first (s : string) :
  Str.first_is_space s = false ->
  Str.first_is_space (Str.trimEnd s) = false.
Proof.
  destruct s as [|c s]; [reflexivity|]. cbn [Str.first_is_space Str.trimEnd].
  intros H. destruct (Str.trimEnd s); [|exact H].
  rewrite H. exact H.
Qed.

(** X20. What [loadSession] returns never starts or ends with white
    space, so trimming it again changes nothing; a session file that
    holds white space only reads as the empty string, like a missing
    one. *)
Theorem loadSession_is_trimmed (d : files) :
  Str.first_is_space (ChatReader.loadSession d) = false
  /\ Str.last_is_space (ChatReader.loadSession d) = false
  /\ Str.trim (ChatReader.loadSession d) = ChatReader.loadSession d
  /\ (forall data,
         sessionFile d = Content data -> Str.all_space data = true ->
         ChatReader.loadSession d = "").
Proof.
  assert (H : Str.first_is_space (ChatReader.loadSession d) = false
              /\ Str.last_is_space (ChatReader.loadSession d) = false).
  { unfold ChatReader.loadSession.
    destruct (sessionFile d) as [| |data]; try (split; reflexivity).
    split.
    - apply trimEnd_first, trimStart_first.
    - apply trimEnd_last. }
  destruct H as [Hf Hl]. repeat split; try assumption.
  - now apply trim_clean.
  - intros data Hd Hb. unfold ChatReader.loadSession. rewrite Hd.
    now apply trim_blank.
Qed.

(** X21. The keys of a conversation object: the six summary keys in a
    fixed order, then the detail key chosen by the class of the entity
    (none for other classes), then [lastMessage] exactly when the dialog
    has a message.  The three flags are copied from the dialog and do
    not depend on the class that chose the detail key. *)
Theorem conversation_object_keys (d : Dialog) :
  map fst (ChatReader.chatInfo d)
  = ([ "id"; "title"; "isUser"; "isGroup"; "isChannel"; "unreadCount" ]
       ++ match entity d with
          | Api_User _ => [ "user" ]
          | Api_Chat _ => [ "chat" ]
          | Api_Channel _ => [ "channel" ]
          | Api_other => []
          end
       ++ match dialog_message d with
          | Some _ => [ "lastMessage" ]
          | None => []
          end)%list
  /\ get "isUser" (ChatReader.chatInfo d) = JBool (isUser d)
  /\ get "isGroup" (ChatReader.chatInfo d) = JBool (isGroup d)
  /\ get "isChannel" (ChatReader.chatInfo d) = JBool (isChannel d).
Proof.
  unfold ChatReader.chatInfo.
  destruct (entity d); destruct (dialog_message d); cbn; tauto.
Qed.

(** X22. Listed tools against dispatched names.  In the bot server the
    names the ListTools handler lists are exactly the case labels of
    the switch.  In the first chat reader every listed name is a case
    label.  In the second chat reader [auto_connect] is listed but is
    no case label, so calling it is answered [Unknown tool]. *)
Theorem listed_tools_and_case_labels
  (P : Platform) (args : option object) (st : state) :
  (forall n, In n (map name BotApi.tools) <-> In n BotApi.case_labels)
  /\ (forall n,
         In n (map name ChatReader.tools) -> In n ChatReader.case_labels)
  /\ In "auto_connect" (map name (fst (ChatReader2.listTools st)))
  /\ ChatReader2.callTool P "auto_connect" args st
     = (ChatReader.errorContent "Unknown tool: auto_connect", st).
Proof.
  repeat split.
  - cbn. tauto.
  - cbn. tauto.
  - cbn. tauto.
  - cbn. tauto.
Qed.


Lemma authenticate_outcome_witness :
  fst (snd (AuthenticationFlow.authenticate Scenario.good_run
              (Fixture.no_files, [])))
  = Fixture.saved_files
  /\ fst (snd (AuthenticationFlow.authenticate Scenario.wrong_code
                 (Fixture.no_files, [])))
     = Fixture.no_files
  /\ AuthenticationFlow.authenticate Scenario.disk_full
       (Fixture.no_files, [])
     = (Ok tt,
        ({| credentialsFile := Content "";
            sessionFile := Content "1BQANOTEuMTA4LjU2" |},
         [ AuthenticationFlow.Started;
           AuthenticationFlow.Failed
             (ThrownError "ENOSPC: no space left on device, write");
           AuthenticationFlow.Closed ])).
Proof.
  split; [|split].
  - destruct (authenticate_outcome Scenario.good_run Fixture.no_files)
      as (_ & _ & _ & H & _).
    apply H; [split; reflexivity | intros _; split; reflexivity].
  - destruct (authenticate_outcome Scenario.wrong_code Fixture.no_files)
      as (_ & _ & H & _).
    apply H. intros [[_ K] _]. discriminate K.
  - destruct (authenticate_outcome Scenario.disk_full Fixture.no_files)
      as (H1 & _ & _ & _ & _ & H & _).
    destruct (H (ThrownError "ENOSPC: no space left on device, write")
                (Content "") (conj eq_refl eq_refl)
                ltac:(discriminate) eq_refl eq_refl) as [Ha Hb].
    cbv zeta in H1, Ha, Hb.
    destruct (AuthenticationFlow.authenticate Scenario.disk_full
                (Fixture.no_files, [])) as [r [a ev]].
    cbn [fst snd] in H1, Ha, Hb. now subst.
Defined.

Lemma loadSession_is_trimmed_witness :
  ChatReader.loadSession Fixture.credentials_only = "".
Proof.
  destruct (loadSession_is_trimmed Fixture.credentials_only)
    as (_ & _ & _ & H).
  exact (H "   " eq_refl eq_refl).
Defined.

Lemma listed_tools_and_case_labels_witness :
  In "send_telegram_photo" BotApi.case_labels.
Proof.
  apply (listed_tools_and_case_labels Fixture.online None Fixture.connected).
  cbn. tauto.
Defined.


